(** * Star: the package lifecycle manager of Star-Shell

    A shallow embedding of [star/star.go] (package [star]): the four
    operations [Install], [ListInstalledStars], [Uninstall] and [Update],
    the manifest file [./stars/.stars] and the install directory [./stars].

    Around it, the shell of [starshell.go] that calls these operations:
    [executeCommand] with the built-in commands and the aliases, and
    [generatePrompt]. The configuration, which [LoadConfig] reads once, is an
    argument, and a run of the shell is one call of [executeCommand]; the
    loop of [main] is not part of the model.

    The Go program talks to three things outside itself, and each is
    modelled explicitly:
    - the file system, a finite map from cleaned paths to nodes (module [os]);
    - the network together with the HTTP client before it: an oracle that
      answers a call of [http.Get] with what the client hands to its caller,
      an error or the last response (the client follows redirections by
      itself, and the response it returns is the one at their end), with
      the list of the URLs [http.Get] was called with kept in the world
      (module [http]);
    - the standard library functions it calls ([strings.ToLower],
      [strings.Contains], [filepath.Join], [encoding/json] on the manifest),
      written out as functions in modules named after their Go packages.

    Go strings are modelled as Rocq strings read as text: a character
    stands for the code point of the same number (U+0000 to U+00FF), so
    every string of the model is a well-formed Go string. A Go string that
    is not the UTF-8 form of a text is outside this reading; what the
    encoder of [encoding/json] does with one is written out apart, on
    bytes (module [Bytes]).

    The file system has regular files and directories and nothing else: no
    permissions and no links, and names that differ in a character name
    different nodes. A path is the name of a node as it is written after
    cleaning: a path that leaves the working directory through [..] is not
    resolved against the name of that directory, so statements on where a
    file lies are made for paths that stay inside the install directory. Reading and writing an open regular file succeed, and a
    response comes with its whole body: what a download cut short or a
    full disk leave behind is not modelled, and no statement is made on
    a failure that comes after a download has begun. *)

From Stdlib Require Import ZArith NArith String Ascii List Bool Lia.
From stdpp Require Import gmap strings list fin_maps pretty.

Local Open Scope string_scope.
Local Open Scope list_scope.

(** ** Characters used by the JSON text and by paths *)

Definition quote : ascii := "034"%char.
Definition backslash : ascii := "092"%char.
Definition slash : ascii := "/"%char.

(** ** Package [strings] *)

Module Strings.

(** [unicode.ToLower] on the code points of the model: the ASCII capitals
    and the Latin-1 capitals U+00C0..U+00DE (U+00D7, the multiplication
    sign, is not a letter). *)
Definition toLowerRune (c : ascii) : ascii :=
  let n := N_of_ascii c in
  if ((65 <=? n) && (n <=? 90) || (192 <=? n) && (n <=? 222) && negb (n =? 215))%N
  then ascii_of_N (n + 32) else c.

Fixpoint ToLower (s : string) : string :=
  match s with
  | EmptyString => EmptyString
  | String c s' => String (toLowerRune c) (ToLower s')
  end.

Fixpoint HasPrefix (s prefix : string) : bool :=
  match prefix, s with
  | EmptyString, _ => true
  | String _ _, EmptyString => false
  | String p prefix', String c s' => Ascii.eqb c p && HasPrefix s' prefix'
  end.

(** [strings.Contains s substr]: [substr] occurs in [s] at some offset. *)
Fixpoint Contains (s substr : string) : bool :=
  HasPrefix s substr ||
  match s with
  | EmptyString => false
  | String _ s' => Contains s' substr
  end.

(** [strings.Join elems sep] *)
Fixpoint Join (elems : list string) (sep : string) : string :=
  match elems with
  | [] => ""
  | [e] => e
  | e :: rest => e ++ sep ++ Join rest sep
  end.

(** [unicode.IsSpace] on the code points of the model: the ASCII white
    space, U+0085 and U+00A0. *)
Definition isSpace (c : ascii) : bool :=
  let n := N_of_ascii c in
  ((9 <=? n) && (n <=? 13) || (n =? 32) || (n =? 133) || (n =? 160))%N.

(** [strings.Fields s]: the maximal runs of characters of [s] that are not
    white space, in their order. [cur] is the run being read. *)
Fixpoint fieldsFrom (cur : string) (s : string) : list string :=
  match s with
  | EmptyString => if String.eqb cur "" then [] else [cur]
  | String c s' =>
      if isSpace c
      then if String.eqb cur "" then fieldsFrom "" s' else cur :: fieldsFrom "" s'
      else fieldsFrom (cur ++ String c "") s'
  end.

Definition Fields (s : string) : list string := fieldsFrom "" s.

(** The scan of [Split] for a separator that is not empty: [cur] is the
    piece being read, [skip] the number of characters of a separator just
    found that are still to be passed over. *)
Fixpoint splitFrom (sep : string) (skip : nat) (cur : string) (s : string)
  : list string :=
  match s with
  | EmptyString => [cur]
  | String c s' =>
      match skip with
      | S k => splitFrom sep k cur s'
      | O =>
          if HasPrefix s sep
          then cur :: splitFrom sep (String.length sep - 1) "" s'
          else splitFrom sep 0 (cur ++ String c "") s'
      end
  end.

(** [strings.Split s sep]: the pieces of [s] between the occurrences of
    [sep], read from the left; with the empty separator, the characters of
    [s] one by one. *)
Definition Split (s sep : string) : list string :=
  if String.eqb sep ""
  then List.map (fun c => String c "") (list_ascii_of_string s)
  else splitFrom sep 0 "" s.

(** [s[n:]], for [n] within the length of [s]. *)
Fixpoint drop (n : nat) (s : string) : string :=
  match n, s with
  | O, _ => s
  | S k, String _ s' => drop k s'
  | S _, EmptyString => EmptyString
  end.

Definition TrimPrefix (s prefix : string) : string :=
  if HasPrefix s prefix then drop (String.length prefix) s else s.

Definition HasSuffix (s suffix : string) : bool :=
  (String.length suffix <=? String.length s)%nat &&
  String.eqb (drop (String.length s - String.length suffix) s) suffix.

(** The scan of [ReplaceAll] for an [old] that is not empty. *)
Fixpoint replaceFrom (old new : string) (skip : nat) (s : string) : string :=
  match s with
  | EmptyString => EmptyString
  | String c s' =>
      match skip with
      | S k => replaceFrom old new k s'
      | O =>
          if HasPrefix s old
          then new ++ replaceFrom old new (String.length old - 1) s'
          else String c (replaceFrom old new 0 s')
      end
  end.

Fixpoint replaceEmpty (new : string) (s : string) : string :=
  match s with
  | EmptyString => new
  | String c s' => new ++ String c (replaceEmpty new s')
  end.

(** [strings.ReplaceAll s old new]: the occurrences of [old] that do not
    overlap, read from the left, are replaced; an empty [old] matches before
    every character and at the end. *)
Definition ReplaceAll (s old new : string) : string :=
  if String.eqb old "" then replaceEmpty new s else replaceFrom old new 0 s.

End Strings.

(** ** Package [path/filepath], for slash-separated paths *)

Module Filepath.

(** The elements of a path between its separators: ["a//b"] has the
    elements ["a"], [""] and ["b"]. *)
Fixpoint pathElements (path : string) : list string :=
  match path with
  | EmptyString => [""]
  | String c path' =>
      if Ascii.eqb c slash then "" :: pathElements path'
      else match pathElements path' with
           | [] => [String c ""]
           | e :: es => String c e :: es
           end
  end.

(** One step of [Clean]'s scan. [out] holds the elements kept so far, the
    last one first. An empty element and ["."] are dropped; [".."] removes
    the last kept element when there is one to remove, is dropped at the
    root, and is kept at the front of a relative path. *)
Definition cleanStep (rooted : bool) (out : list string) (elem : string)
  : list string :=
  if String.eqb elem "" || String.eqb elem "." then out
  else if String.eqb elem ".." then
    match out with
    | top :: rest => if String.eqb top ".." then elem :: out else rest
    | [] => if rooted then out else [elem]
    end
  else elem :: out.

Definition Clean (path : string) : string :=
  if String.eqb path "" then "."
  else
    let rooted := Strings.HasPrefix path "/" in
    let out := fold_left (cleanStep rooted) (pathElements path) [] in
    let body := Strings.Join (rev out) "/" in
    if rooted then "/" ++ body
    else if String.eqb body "" then "." else body.

(** [filepath.Join]: the first non-empty element and all that follow it are
    joined with the separator and the result is cleaned; with no non-empty
    element the result is the empty string. *)
Fixpoint Join (elem : list string) : string :=
  match elem with
  | [] => ""
  | e :: rest =>
      if String.eqb e "" then Join rest else Clean (Strings.Join elem "/")
  end.

(** The part of [path] up to and including its last separator. *)
Fixpoint dirPrefix (path : string) : string :=
  match path with
  | EmptyString => ""
  | String c path' =>
      if Ascii.eqb c slash || Strings.Contains path' "/"
      then String c (dirPrefix path') else ""
  end.

(** [filepath.Dir]: all but the last element of [path], cleaned. *)
Definition Dir (path : string) : string := Clean (dirPrefix path).

(** The cleaned path [path] is made of [..] only: it names the directory
    above the working directory, or one further up. *)
Definition above (path : string) : bool :=
  forallb (String.eqb "..") (pathElements path).

(** [filepath.Ext]: the suffix of [path] that begins at the last dot of its
    last element; empty when that element has no dot. *)
Fixpoint Ext (path : string) : string :=
  match path with
  | EmptyString => EmptyString
  | String c rest =>
      if Strings.Contains rest "/" then Ext rest
      else match Ext rest with
           | EmptyString => if Ascii.eqb c "." then path else EmptyString
           | e => e
           end
  end.

End Filepath.

(** ** The data model of [star.go] *)

(** [type Package struct { User, Repo, Version, File string }] *)
Record Package := mkPackage {
  User : string;
  Repo : string;
  Version : string;
  File : string;
}.

Definition zeroPackage : Package := mkPackage "" "" "" "".

(** A Go value of type [[]Package]: the nil slice, or a slice with its
    elements. The two differ in what [encoding/json] writes for them. *)
Inductive slice :=
| nilSlice
| Slice (elems : list Package).

Definition items (s : slice) : list Package :=
  match s with
  | nilSlice => []
  | Slice ps => ps
  end.

(** [append(s, p)]: never nil. *)
Definition append (s : slice) (p : Package) : slice :=
  Slice (items s ++ [p]).

Definition starFile : string := "./stars/.stars".
Definition installDir : string := "./stars".

(** ** Package [encoding/json], on values of type [[]Package] *)

Module Json.

Definition newline : ascii := "010"%char.

Definition hexDigit (n : N) : ascii :=
  match String.get (N.to_nat n) "0123456789abcdef" with
  | Some c => c
  | None => "0"%char
  end.

(** What the encoder writes for one character of a string: the two-letter
    escapes (with [\b] and [\f], as Go writes them since 1.22), [\u00xx] for
    the other control characters and for [<], [>] and [&] (HTML escaping is
    on by default), the character itself otherwise. *)
Definition escapeRune (c : ascii) : string :=
  let n := N_of_ascii c in
  if Ascii.eqb c quote || Ascii.eqb c backslash then String backslash (String c "")
  else if (n =? 8)%N then String backslash "b"
  else if (n =? 12)%N then String backslash "f"
  else if (n =? 10)%N then String backslash "n"
  else if (n =? 13)%N then String backslash "r"
  else if (n =? 9)%N then String backslash "t"
  else if (n <? 32)%N || Ascii.eqb c "<" || Ascii.eqb c ">" || Ascii.eqb c "&"
  then String backslash
         ("u00" ++ String (hexDigit (n / 16)) (String (hexDigit (n mod 16)) ""))
  else String c "".

Fixpoint escape (s : string) : string :=
  match s with
  | EmptyString => ""
  | String c s' => escapeRune c ++ escape s'
  end.

Definition quoteString (s : string) : string :=
  String quote (escape s ++ String quote "").

(** The struct tags give the keys, in the order of the fields. *)
Definition member (key value : string) : string :=
  String quote (key ++ String quote (":" ++ quoteString value)).

Definition encodePackage (p : Package) : string :=
  "{" ++ member "user" (User p) ++ "," ++ member "repo" (Repo p) ++ ","
      ++ member "version" (Version p) ++ "," ++ member "file" (File p) ++ "}".

Fixpoint encodeElements (ps : list Package) : string :=
  match ps with
  | [] => ""
  | [p] => encodePackage p
  | p :: rest => encodePackage p ++ "," ++ encodeElements rest
  end.

(** [json.Marshal]: the nil slice is written as [null], any other slice as
    an array. *)
Definition Marshal (s : slice) : string :=
  match s with
  | nilSlice => "null"
  | Slice ps => "[" ++ encodeElements ps ++ "]"
  end.

(** [Encoder.Encode] writes the value followed by a newline. *)
Definition Encode (s : slice) : string := Marshal s ++ String newline "".

(** *** Decoding

    The decoder reads the first JSON value of the text and ignores what
    follows it. It covers the documents of the manifest's shape: [null], or
    an array whose elements are [null] or objects with string or [null]
    members; white space is allowed between the tokens, the keys are matched
    without regard to case and may come in any order, a repeated key
    overwrites, an unknown key is skipped. Any other text is a decoding
    error (encoding/json also skips numbers, booleans and nested values
    under unknown keys, and decodes [\u] escapes above U+00FF, which the
    text of the model cannot hold). *)

Definition isSpace (c : ascii) : bool :=
  Ascii.eqb c " " || Ascii.eqb c "009" || Ascii.eqb c "013" || Ascii.eqb c "010".

Fixpoint skipSpace (s : string) : string :=
  match s with
  | EmptyString => ""
  | String c s' => if isSpace c then skipSpace s' else s
  end.

Fixpoint dropChars (n : nat) (s : string) : string :=
  match n, s with
  | S n', String _ s' => dropChars n' s'
  | _, _ => s
  end.

Definition hexValue (c : ascii) : option N :=
  let n := N_of_ascii c in
  if ((48 <=? n) && (n <=? 57))%N then Some (n - 48)%N
  else if ((97 <=? n) && (n <=? 102))%N then Some (n - 87)%N
  else if ((65 <=? n) && (n <=? 70))%N then Some (n - 55)%N
  else None.

Definition getu4 (h1 h2 h3 h4 : ascii) : option N :=
  match hexValue h1, hexValue h2, hexValue h3, hexValue h4 with
  | Some a, Some b, Some c, Some d => Some (((a * 16 + b) * 16 + c) * 16 + d)%N
  | _, _, _, _ => None
  end.

(** The character a two-letter escape stands for. *)
Definition unescape (e : ascii) : option ascii :=
  if Ascii.eqb e quote || Ascii.eqb e backslash || Ascii.eqb e "/" then Some e
  else if Ascii.eqb e "b" then Some "008"%char
  else if Ascii.eqb e "f" then Some "012"%char
  else if Ascii.eqb e "n" then Some "010"%char
  else if Ascii.eqb e "r" then Some "013"%char
  else if Ascii.eqb e "t" then Some "009"%char
  else None.

Definition consChar (c : ascii) (r : option (string * string))
  : option (string * string) :=
  match r with
  | Some (v, rest) => Some (String c v, rest)
  | None => None
  end.

(** The text of a string literal after its opening quote: the decoded
    string and the input that follows the closing quote. *)
Fixpoint unquoteBody (s : string) : option (string * string) :=
  match s with
  | EmptyString => None
  | String c s' =>
      if Ascii.eqb c quote then Some ("", s')
      else if Ascii.eqb c backslash then
        match s' with
        | EmptyString => None
        | String e s'' =>
            if Ascii.eqb e "u" then
              match s'' with
              | String h1 (String h2 (String h3 (String h4 r))) =>
                  match getu4 h1 h2 h3 h4 with
                  | Some n =>
                      if (n <? 256)%N then consChar (ascii_of_N n) (unquoteBody r)
                      else None
                  | None => None
                  end
              | _ => None
              end
            else
              match unescape e with
              | Some ch => consChar ch (unquoteBody s'')
              | None => None
              end
        end
      else if (N_of_ascii c <? 32)%N then None
      else consChar c (unquoteBody s')
  end.

Definition parseString (s : string) : option (string * string) :=
  match s with
  | EmptyString => None
  | String c s' => if Ascii.eqb c quote then unquoteBody s' else None
  end.

(** The value of a member: a string, or [null], which leaves the field as
    it is. *)
Definition parseValue (s : string) : option (option string * string) :=
  if Strings.HasPrefix s "null" then Some (None, dropChars 4 s)
  else match parseString s with
       | Some (v, rest) => Some (Some v, rest)
       | None => None
       end.

Definition setField (key value : string) (p : Package) : Package :=
  let k := Strings.ToLower key in
  if String.eqb k "user" then mkPackage value (Repo p) (Version p) (File p)
  else if String.eqb k "repo" then mkPackage (User p) value (Version p) (File p)
  else if String.eqb k "version" then mkPackage (User p) (Repo p) value (File p)
  else if String.eqb k "file" then mkPackage (User p) (Repo p) (Version p) value
  else p.

(** The members of an object, from the first key to the closing brace. *)
Fixpoint parseMembers (fuel : nat) (s : string) (p : Package)
  : option (Package * string) :=
  match fuel with
  | O => None
  | S fuel' =>
      match parseString s with
      | None => None
      | Some (key, s1) =>
          match skipSpace s1 with
          | EmptyString => None
          | String colon s2 =>
              if negb (Ascii.eqb colon ":") then None
              else
                match parseValue (skipSpace s2) with
                | None => None
                | Some (v, s3) =>
                    let p' := match v with
                              | Some str => setField key str p
                              | None => p
                              end in
                    match skipSpace s3 with
                    | EmptyString => None
                    | String c s4 =>
                        if Ascii.eqb c "," then parseMembers fuel' (skipSpace s4) p'
                        else if Ascii.eqb c "}" then Some (p', s4)
                        else None
                    end
                end
          end
      end
  end.

Definition parseObject (fuel : nat) (s : string) : option (Package * string) :=
  match s with
  | EmptyString => None
  | String c s1 =>
      if negb (Ascii.eqb c "{") then None
      else
        match skipSpace s1 with
        | EmptyString => None
        | String c2 s2 =>
            if Ascii.eqb c2 "}" then Some (zeroPackage, s2)
            else parseMembers fuel (String c2 s2) zeroPackage
        end
  end.

(** An element of the array: an object, or [null] for the zero value. *)
Definition parseElement (fuel : nat) (s : string) : option (Package * string) :=
  if Strings.HasPrefix s "null" then Some (zeroPackage, dropChars 4 s)
  else parseObject fuel s.

(** The elements of an array, from the first one to the closing bracket. *)
Fixpoint parseElements (fuel : nat) (s : string) : option (list Package * string) :=
  match fuel with
  | O => None
  | S fuel' =>
      match parseElement fuel' s with
      | None => None
      | Some (p, s1) =>
          match skipSpace s1 with
          | EmptyString => None
          | String c s2 =>
              if Ascii.eqb c "," then
                match parseElements fuel' (skipSpace s2) with
                | Some (ps, rest) => Some (p :: ps, rest)
                | None => None
                end
              else if Ascii.eqb c "]" then Some ([p], s2)
              else None
          end
      end
  end.

(** [Decoder.Decode] into a nil [[]Package] variable: [null] leaves it nil,
    an array makes a slice, the empty array the empty slice that is not
    nil. *)
Definition Decode (text : string) : option slice :=
  let s := skipSpace text in
  if Strings.HasPrefix s "null" then Some nilSlice
  else
    match s with
    | EmptyString => None
    | String c s1 =>
        if negb (Ascii.eqb c "[") then None
        else
          match skipSpace s1 with
          | EmptyString => None
          | String c2 s2 =>
              if Ascii.eqb c2 "]" then Some (Slice [])
              else
                match parseElements (String.length text) (String c2 s2) with
                | Some (ps, _) => Some (Slice ps)
                | None => None
                end
          end
    end.

End Json.

(** ** Package [unicode/utf8] *)

Module Utf8.

Definition RuneError : N := 0xFFFD.

Definition within (lo hi b : N) : bool := ((lo <=? b) && (b <=? hi))%N.

(** The table [first] with [acceptRanges], for a byte that begins a rune of
    more than one byte: the size of the rune and the range in which its
    second byte must lie. The bytes 0x80 to 0xC1 and 0xF5 to 0xFF begin no
    rune. *)
Definition first (b : N) : option (nat * (N * N)) :=
  if within 0xC2 0xDF b then Some (2, (0x80, 0xBF)%N)
  else if (b =? 0xE0)%N then Some (3, (0xA0, 0xBF)%N)
  else if within 0xE1 0xEC b then Some (3, (0x80, 0xBF)%N)
  else if (b =? 0xED)%N then Some (3, (0x80, 0x9F)%N)
  else if within 0xEE 0xEF b then Some (3, (0x80, 0xBF)%N)
  else if (b =? 0xF0)%N then Some (4, (0x90, 0xBF)%N)
  else if within 0xF1 0xF3 b then Some (4, (0x80, 0xBF)%N)
  else if (b =? 0xF4)%N then Some (4, (0x80, 0x8F)%N)
  else None.

(** A byte that continues a rune: [locb] to [hicb]. *)
Definition continues (b : N) : bool := within 0x80 0xBF b.

(** [utf8.DecodeRuneInString]: the first rune of the string and the number
    of bytes it takes; [(RuneError, 1)] where the string does not begin
    with the UTF-8 form of a rune, be it that it ends too early (the test
    [n < sz] of the source), and [(RuneError, 0)] for the empty string. *)
Definition DecodeRuneInString (s : string) : N * nat :=
  match s with
  | EmptyString => (RuneError, 0)
  | String c0 t1 =>
      let s0 := N_of_ascii c0 in
      if (s0 <? 0x80)%N then (s0, 1)
      else
        match first s0 with
        | None => (RuneError, 1)
        | Some (sz, (lo, hi)) =>
            match t1 with
            | EmptyString => (RuneError, 1)
            | String c1 t2 =>
                let s1 := N_of_ascii c1 in
                if negb (within lo hi s1) then (RuneError, 1)
                else if (sz <=? 2)%nat then
                  (N.lor (N.shiftl (N.land s0 0x1F) 6) (N.land s1 0x3F), 2)
                else
                  match t2 with
                  | EmptyString => (RuneError, 1)
                  | String c2 t3 =>
                      let s2 := N_of_ascii c2 in
                      if negb (continues s2) then (RuneError, 1)
                      else if (sz <=? 3)%nat then
                        (N.lor (N.shiftl (N.land s0 0x0F) 12)
                           (N.lor (N.shiftl (N.land s1 0x3F) 6) (N.land s2 0x3F)), 3)
                      else
                        match t3 with
                        | EmptyString => (RuneError, 1)
                        | String c3 _ =>
                            let s3 := N_of_ascii c3 in
                            if negb (continues s3) then (RuneError, 1)
                            else
                              (N.lor (N.shiftl (N.land s0 0x07) 18)
                                 (N.lor (N.shiftl (N.land s1 0x3F) 12)
                                    (N.lor (N.shiftl (N.land s2 0x3F) 6)
                                       (N.land s3 0x3F))), 4)
                        end
                  end
            end
        end
  end.

(** [utf8.AppendRune] for a code point below U+0100, the code points of
    the texts of the model: one byte below U+0080, two from there. *)
Definition encodeRune (c : ascii) : string :=
  let n := N_of_ascii c in
  if (n <? 0x80)%N then String c ""
  else String (ascii_of_N (N.lor 0xC0 (N.shiftr n 6)))
         (String (ascii_of_N (N.lor 0x80 (N.land n 0x3F))) "").

(** The UTF-8 form of a text: the Go string that holds it. *)
Fixpoint encode (s : string) : string :=
  match s with
  | EmptyString => ""
  | String c s' => encodeRune c ++ encode s'
  end.

End Utf8.

(** ** Package [encoding/json], the encoder on Go strings as they are

    In module [Json] a string is a text. Here it is what Go holds: a
    sequence of bytes, a character standing for the byte of the same
    number, which may or may not be the UTF-8 form of a text. *)

Module Bytes.

(** [appendString] with HTML escaping on. A byte below 0x80 is written as
    module [Json] writes the character; from 0x80 on the string is read as
    UTF-8: a byte that begins no rune is written as the escape of U+FFFD
    (a backslash, [u] and [fffd]), the line and paragraph separators U+2028
    and U+2029 as their escapes, and the bytes of any other rune as they
    are. [skip] counts the bytes of the rune in hand that are still to
    come, and [keep] tells whether they are written. *)
Fixpoint escapeFrom (skip : nat) (keep : bool) (src : string) : string :=
  match src with
  | EmptyString => ""
  | String b rest =>
      match skip with
      | S skip' =>
          if keep then String b (escapeFrom skip' keep rest)
          else escapeFrom skip' keep rest
      | O =>
          if (N_of_ascii b <? 0x80)%N then Json.escapeRune b ++ escapeFrom 0 true rest
          else
            let (c, size) := Utf8.DecodeRuneInString src in
            if (c =? Utf8.RuneError)%N && (size =? 1)%nat then
              String backslash "ufffd" ++ escapeFrom 0 true rest
            else if (c =? 0x2028)%N || (c =? 0x2029)%N then
              String backslash ("u202" ++ String (Json.hexDigit (N.land c 0xF)) "")
                ++ escapeFrom (size - 1)%nat false rest
            else String b (escapeFrom (size - 1)%nat true rest)
      end
  end.

Definition escape (s : string) : string := escapeFrom 0 true s.

Definition quoteString (s : string) : string :=
  String quote (escape s ++ String quote "").

Definition member (key value : string) : string :=
  String quote (key ++ String quote (":" ++ quoteString value)).

Definition encodePackage (p : Package) : string :=
  "{" ++ member "user" (User p) ++ "," ++ member "repo" (Repo p) ++ ","
      ++ member "version" (Version p) ++ "," ++ member "file" (File p) ++ "}".

Fixpoint encodeElements (ps : list Package) : string :=
  match ps with
  | [] => ""
  | [p] => encodePackage p
  | p :: rest => encodePackage p ++ "," ++ encodeElements rest
  end.

Definition Marshal (s : slice) : string :=
  match s with
  | nilSlice => "null"
  | Slice ps => "[" ++ encodeElements ps ++ "]"
  end.

Definition Encode (s : slice) : string := Marshal s ++ String Json.newline "".

(** The records of the model as Go holds them: every field in UTF-8. *)
Definition ofPackage (p : Package) : Package :=
  mkPackage (Utf8.encode (User p)) (Utf8.encode (Repo p))
    (Utf8.encode (Version p)) (Utf8.encode (File p)).

Definition ofSlice (s : slice) : slice :=
  match s with
  | nilSlice => nilSlice
  | Slice ps => Slice (List.map ofPackage ps)
  end.

End Bytes.

(** ** Errors *)

Inductive errno := ENOENT | EISDIR | ENOTDIR | ENOTEMPTY | EINVAL.

(** Go error values, by the way they are made. *)
Inductive error :=
| errorString (msg : string)              (* errors.New, fmt.Errorf without %w *)
| wrapError (msg : string) (err : error)  (* fmt.Errorf(msg + ": %w", err) *)
| PathError (op path : string) (code : errno)  (* *fs.PathError of package os *)
| SyntaxError.                            (* a decoding error of encoding/json *)

Inductive result (A : Type) :=
| Ok (a : A)
| Err (e : error).

Arguments Ok {A} a.
Arguments Err {A} e.

Module Errors.

Definition New (msg : string) : error := errorString msg.

(** [errors.Is(err, os.ErrNotExist)]: looks through the [%w] wrappers. *)
Fixpoint IsNotExist (err : error) : bool :=
  match err with
  | wrapError _ err' => IsNotExist err'
  | PathError _ _ ENOENT => true
  | _ => false
  end.

End Errors.

(** ** The world the program runs in *)

Inductive node :=
| RegularFile (content : string)
| Directory.

(** What [http.Get] hands to its caller: an error (of the transport, or of
    the client, which gives up after ten redirections), or the response it
    ends with, with its status code and body. *)
Inductive HttpResult :=
| TransportError (err : error)
| Respond (code : Z) (body : string).

Record Response := mkResponse {
  StatusCode : Z;
  Body : string;
}.

(** [GOOS] and [GOARCH] stand for [runtime.GOOS] and [runtime.GOARCH]; [fs]
    maps a cleaned path to the node it names; [server] answers a call of
    [http.Get], given the calls made before it; [requests] lists the URLs
    [http.Get] was called with so far, the oldest first. *)
Record World := mkWorld {
  GOOS : string;
  GOARCH : string;
  fs : gmap string node;
  server : list string -> string -> HttpResult;
  requests : list string;
}.

Definition withFs (w : World) (m : gmap string node) : World :=
  mkWorld (GOOS w) (GOARCH w) m (server w) (requests w).

Definition withRequests (w : World) (rs : list string) : World :=
  mkWorld (GOOS w) (GOARCH w) (fs w) (server w) rs.

(** A Go function that may fail and may change the world: it returns a
    value or a non-nil error, and the world it leaves. *)
Definition M (A : Type) : Type := World -> result A * World.

Definition ret {A} (a : A) : M A := fun w => (Ok a, w).

Definition throw {A} (e : error) : M A := fun w => (Err e, w).

Definition bind {A B} (m : M A) (k : A -> M B) : M B :=
  fun w =>
    match m w with
    | (Ok a, w') => k a w'
    | (Err e, w') => (Err e, w')
    end.

Notation "x <- m ;; k" := (bind m (fun x => k))
  (at level 20, m at level 99, k at level 200, only parsing).

(** [if err != nil { return fmt.Errorf(msg + ": %w", err) }] *)
Definition Errorf_w {A} (msg : string) (m : M A) : M A :=
  fun w =>
    match m w with
    | (Ok a, w') => (Ok a, w')
    | (Err e, w') => (Err (wrapError msg e), w')
    end.

(** ** Package [os] *)

Module Os.

(** An open file: the name it was opened with and the path it denotes. *)
Record File := mkFile {
  Name : string;
  key : string;
}.

(** The working directory, the directories above it and the root are
    always there. *)
Definition isDir (m : gmap string node) (k : string) : bool :=
  String.eqb k "." || String.eqb k "/" || Filepath.above k ||
  match m !! k with
  | Some Directory => true
  | _ => false
  end.

Definition exists_ (m : gmap string node) (k : string) : bool :=
  isDir m k || match m !! k with Some _ => true | None => false end.

(** The error for a path that is not there: [ENOTDIR] when a regular file
    stands where its directory should be, [ENOENT] otherwise. *)
Definition missing (m : gmap string node) (k : string) : errno :=
  match m !! Filepath.Dir k with
  | Some (RegularFile _) => ENOTDIR
  | _ => ENOENT
  end.

(** [os.Open]: the file or directory must exist. *)
Definition Open (name : string) : M File := fun w =>
  let k := Filepath.Clean name in
  if exists_ (fs w) k then (Ok (mkFile name k), w)
  else (Err (PathError "open" name (missing (fs w) k)), w).

(** Reading an open file to its end; a directory cannot be read. *)
Definition Read (f : File) : M string := fun w =>
  match fs w !! key f with
  | Some (RegularFile content) => (Ok content, w)
  | _ => (Err (PathError "read" (Name f) EISDIR), w)
  end.

(** [os.Create]: makes the file, or empties the one that is there; the
    directory it lies in must exist. *)
Definition Create (name : string) : M File := fun w =>
  let k := Filepath.Clean name in
  if isDir (fs w) k then (Err (PathError "open" name EISDIR), w)
  else if isDir (fs w) (Filepath.Dir k)
  then (Ok (mkFile name k), withFs w (<[k := RegularFile ""]> (fs w)))
  else (Err (PathError "open" name (missing (fs w) k)), w).

(** Writing [data] at the end of an open file. *)
Definition Write (f : File) (data : string) : M unit := fun w =>
  match fs w !! key f with
  | Some (RegularFile content) =>
      (Ok tt, withFs w (<[key f := RegularFile (content ++ data)]> (fs w)))
  | _ => (Err (PathError "write" (Name f) EISDIR), w)
  end.

(** The paths of the directories from the top down to [k]: for ["a/b/c"],
    ["a"], ["a/b"] and ["a/b/c"]. *)
Fixpoint prefixesFrom (acc : string) (elems : list string) : list string :=
  match elems with
  | [] => []
  | e :: rest =>
      let p := (if String.eqb acc "" then e
                else if String.eqb acc "/" then acc ++ e
                else acc ++ "/" ++ e)%string in
      p :: prefixesFrom p rest
  end.

Definition prefixes (k : string) : list string :=
  if Strings.HasPrefix k "/" then prefixesFrom "/" (tail (Filepath.pathElements k))
  else prefixesFrom "" (Filepath.pathElements k).

Fixpoint mkdirs (m : gmap string node) (ps : list string)
  : option (gmap string node) :=
  match ps with
  | [] => Some m
  | p :: rest =>
      match m !! p with
      | Some (RegularFile _) => None
      | Some Directory => mkdirs m rest
      | None => if isDir m p then mkdirs m rest
                else mkdirs (<[p := Directory]> m) rest
      end
  end.

(** [os.MkdirAll]: makes the directory and the missing ones above it; fails
    when a regular file is in the way, and then makes nothing. *)
Definition MkdirAll (path : string) : M unit := fun w =>
  let k := Filepath.Clean path in
  if isDir (fs w) k then (Ok tt, w)
  else match mkdirs (fs w) (prefixes k) with
       | Some m => (Ok tt, withFs w m)
       | None => (Err (PathError "mkdir" path ENOTDIR), w)
       end.

(** No path of [m] lies directly in the directory [k]. *)
Definition isEmptyDir (m : gmap string node) (k : string) : bool :=
  bool_decide (map_Forall (fun k' _ => Filepath.Dir k' <> k) m).

(** [os.Remove]: removes a file or an empty directory. The working
    directory cannot be removed under the name [.], and a directory above
    it is not empty. *)
Definition Remove (name : string) : M unit := fun w =>
  let k := Filepath.Clean name in
  if String.eqb k "." then (Err (PathError "remove" name EINVAL), w)
  else if Filepath.above k then (Err (PathError "remove" name ENOTEMPTY), w)
  else
    match fs w !! k with
    | Some (RegularFile _) => (Ok tt, withFs w (delete k (fs w)))
    | Some Directory =>
        if isEmptyDir (fs w) k then (Ok tt, withFs w (delete k (fs w)))
        else (Err (PathError "remove" name ENOTEMPTY), w)
    | None => (Err (PathError "remove" name (missing (fs w) k)), w)
    end.

End Os.

(** ** Package [net/http] *)

Module Http.

(** [http.Get]: the call is recorded and the answer returned. The
    requests the client sends on its own when it follows a redirection are
    part of the answer, not calls of the program. *)
Definition Get (url : string) : M Response := fun w =>
  let w' := withRequests w (requests w ++ [url]) in
  match server w (requests w) url with
  | TransportError e => (Err e, w')
  | Respond code body => (Ok (mkResponse code body), w')
  end.

Definition StatusOK : Z := 200.

End Http.

(** ** The program: [star/star.go] *)

(** The release document of the GitHub API, as [Install] declares it. *)
Record Asset := mkAsset {
  Name : string;   (* json:"name" *)
  URL : string;         (* json:"browser_download_url" *)
}.

Record Release := mkRelease {
  Assets : list Asset;
  TagName : string;
}.

(** [getPlatform]: [fmt.Sprintf("%s-%s", runtime.GOOS, runtime.GOARCH)] *)
Definition getPlatform : M string := fun w =>
  (Ok (GOOS w ++ "-" ++ GOARCH w)%string, w).

(** The loop of [Install] over the assets, from the state [(downloadURL,
    pkg)]: the first asset whose lower-cased name contains the platform
    sets both and ends the loop. *)
Fixpoint selectAsset (assets : list Asset) (platform : string)
    (downloadURL : string) (pkg : Package) : string * Package :=
  match assets with
  | [] => (downloadURL, pkg)
  | asset :: rest =>
      if Strings.Contains (Strings.ToLower (Name asset)) platform
      then (URL asset, mkPackage (User pkg) (Repo pkg) (Version pkg) (Name asset))
      else selectAsset rest platform downloadURL pkg
  end.

(** [listInstalledPackages]: the error of [os.Open] is returned as it is,
    the error of the decoder wrapped. *)
Definition listInstalledPackages : M slice :=
  file <- Os.Open starFile ;;
  Errorf_w "failed to decode .stars file"
    (text <- Os.Read file ;;
     match Json.Decode text with
     | Some packages => ret packages
     | None => throw SyntaxError
     end).

Definition saveInstalledPackages (packages : slice) : M unit :=
  file <- Errorf_w "failed to create .stars file" (Os.Create starFile) ;;
  Errorf_w "failed to write to .stars file" (Os.Write file (Json.Encode packages)).

(** [updateStarsFile]: a manifest that does not exist counts as empty. *)
Definition updateStarsFile (pkg : Package) : M unit := fun w =>
  match listInstalledPackages w with
  | (Ok packages, w') => saveInstalledPackages (append packages pkg) w'
  | (Err err, w') =>
      if negb (Errors.IsNotExist err)
      then (Err (wrapError "failed to list installed packages" err), w')
      else saveInstalledPackages (append nilSlice pkg) w'
  end.

Definition downloadExecutable (url destPath : string) : M unit :=
  resp <- Errorf_w "failed to download file" (Http.Get url) ;;
  if negb (StatusCode resp =? Http.StatusOK)%Z
  then throw (errorString
                ("failed to download file: status code " ++ pretty (StatusCode resp)))
  else
    file <- Errorf_w "failed to create file" (Os.Create destPath) ;;
    Errorf_w "failed to write file" (Os.Write file (Body resp)).

Definition ListInstalledStars : M slice := listInstalledPackages.

(** The first loop of [Uninstall]: the path of the file of the first
    package with the identity of [pkg], from the state [filePath]. *)
Fixpoint locateFile (packages : list Package) (pkg : Package) (filePath : string)
  : string :=
  match packages with
  | [] => filePath
  | p :: rest =>
      if String.eqb (User p) (User pkg) && String.eqb (Repo p) (Repo pkg)
      then Filepath.Join [installDir; File p]
      else locateFile rest pkg filePath
  end.

(** The second loop of [Uninstall]: the packages of another identity are
    appended to [updatedPackages]. *)
Fixpoint keepOthers (packages : list Package) (pkg : Package)
    (updatedPackages : slice) : slice :=
  match packages with
  | [] => updatedPackages
  | p :: rest =>
      keepOthers rest pkg
        (if negb (String.eqb (User p) (User pkg)) || negb (String.eqb (Repo p) (Repo pkg))
         then append updatedPackages p
         else updatedPackages)
  end.

Definition Uninstall (pkg : Package) : M unit :=
  packages <- Errorf_w "failed to list installed packages" listInstalledPackages ;;
  let filePath := locateFile (items packages) pkg "" in
  if String.eqb filePath ""
  then throw (errorString ("package " ++ User pkg ++ "/" ++ Repo pkg ++ " not found"))
  else
    _ <- Errorf_w "failed to remove executable" (Os.Remove filePath) ;;
    let updatedPackages := keepOthers (items packages) pkg nilSlice in
    Errorf_w "failed to update stars file" (saveInstalledPackages updatedPackages).

Section Installing.

(** The decoder of [encoding/json] on release documents: the release a
    response body stands for, if it is one. The development holds for any
    such function. *)
Variable decodeRelease : string -> option Release.

Definition Install (pkg : Package) : M unit :=
  platform <- getPlatform ;;
  if String.eqb platform "unknown-unknown"
  then throw (Errors.New "unsupported platform")
  else
    let releaseURL :=
      ("https://api.github.com/repos/" ++ User pkg ++ "/" ++ Repo pkg
         ++ "/releases/latest")%string in
    resp <- Errorf_w "failed to fetch release" (Http.Get releaseURL) ;;
    if negb (StatusCode resp =? Http.StatusOK)%Z
    then throw (errorString
                  ("failed to fetch release: status code " ++ pretty (StatusCode resp)))
    else
      releaseData <- Errorf_w "failed to decode release data"
                       (match decodeRelease (Body resp) with
                        | Some r => ret r
                        | None => throw SyntaxError
                        end) ;;
      let (downloadURL, pkg) := selectAsset (Assets releaseData) platform "" pkg in
      if String.eqb downloadURL ""
      then throw (errorString
                    ("no compatible release found for platform: " ++ platform))
      else
        let pkg := mkPackage (User pkg) (Repo pkg) (TagName releaseData) (File pkg) in
        let destPath := Filepath.Join [installDir; File pkg] in
        _ <- Errorf_w "failed to create install directory" (Os.MkdirAll installDir) ;;
        _ <- Errorf_w "failed to download executable"
               (downloadExecutable downloadURL destPath) ;;
        Errorf_w "failed to update stars file" (updateStarsFile pkg).

Definition Update (pkg : Package) : M unit :=
  _ <- Errorf_w "failed to uninstall package" (Uninstall pkg) ;;
  Install pkg.

End Installing.

(** ** Vocabulary of the statements *)

(** The path the manifest is stored under. *)
Definition manifestKey : string := Filepath.Clean starFile.

(** The URL [Install] asks the release of [pkg] from. *)
Definition releaseURL (pkg : Package) : string :=
  "https://api.github.com/repos/" ++ User pkg ++ "/" ++ Repo pkg ++ "/releases/latest".

(** The platform token of a world. *)
Definition platformOf (w : World) : string := GOOS w ++ "-" ++ GOARCH w.

(** [p] has the identity of [pkg]: the same user and repository. *)
Definition sameIdentity (pkg p : Package) : bool :=
  String.eqb (User p) (User pkg) && String.eqb (Repo p) (Repo pkg).

(** The name of [asset] contains the platform token, case aside. *)
Definition matchesPlatform (platform : string) (asset : Asset) : bool :=
  Strings.Contains (Strings.ToLower (Name asset)) platform.


(** The records of the manifest as a state: a manifest that does not exist
    is an empty one, as [updateStarsFile] takes it; one that cannot be read
    or decoded is no state. *)
Definition manifestState (w : World) : option (list Package) :=
  match fst (listInstalledPackages w) with
  | Ok s => Some (items s)
  | Err err => if Errors.IsNotExist err then Some [] else None
  end.


(** The message of the error [Uninstall] returns for an unknown identity. *)
Definition notFound (pkg : Package) : error :=
  errorString ("package " ++ User pkg ++ "/" ++ Repo pkg ++ " not found").

(** The error [Install] returns when no asset fits the platform. *)
Definition noCompatible (platform : string) : error :=
  errorString ("no compatible release found for platform: " ++ platform).

(** What [Install] does once the loop has selected [asset] from the release
    [rel]: the statements that follow the loop, in the world [w]. *)
Definition installSelected (pkg : Package) (rel : Release) (asset : Asset) : M unit :=
  let pkg' := mkPackage (User pkg) (Repo pkg) (TagName rel) (Name asset) in
  _ <- Errorf_w "failed to create install directory" (Os.MkdirAll installDir) ;;
  _ <- Errorf_w "failed to download executable"
         (downloadExecutable (URL asset) (Filepath.Join [installDir; File pkg'])) ;;
  Errorf_w "failed to update stars file" (updateStarsFile pkg').



(** A JSON value begins with [c]. *)
Definition beginsValue (c : ascii) : bool :=
  existsb (Ascii.eqb c) (quote :: list_ascii_of_string "{[-0123456789tfn").

(** No JSON value begins the text: after its leading white space comes a
    character that no value begins with. [encoding/json] decodes no such
    text: it fails with a syntax error at that character. *)
Definition noJsonValue (text : string) : bool :=
  match Json.skipSpace text with
  | EmptyString => false
  | String c _ => negb (beginsValue c)
  end.

(** ** Statements of the specification, as they are written *)

(** *** Matching without regard to case

    The capital letters of the text of the model are A to Z and, beyond
    ASCII, U+00C0 to U+00DE without the multiplication sign U+00D7; the
    small letter of a capital lies 32 places after it. *)
Definition isCapital (c : ascii) : bool :=
  let n := N_of_ascii c in
  ((65 <=? n) && (n <=? 90) || (192 <=? n) && (n <=? 222) && negb (n =? 215))%N.

Definition smallOf (c : ascii) : ascii := ascii_of_N (N_of_ascii c + 32).

(** The same character, or the same letter in the other case. *)
Definition sameLetter (a b : ascii) : bool :=
  Ascii.eqb a b || isCapital a && Ascii.eqb (smallOf a) b
  || isCapital b && Ascii.eqb (smallOf b) a.

(** [token] stands at the head of [s], case aside. *)
Fixpoint startsWithFold (s token : string) : bool :=
  match token, s with
  | EmptyString, _ => true
  | String _ _, EmptyString => false
  | String t token', String c s' => sameLetter c t && startsWithFold s' token'
  end.

(** [s] contains [token] as a substring, case aside. *)
Fixpoint containsFold (s token : string) : bool :=
  startsWithFold s token ||
  match s with
  | EmptyString => false
  | String _ s' => containsFold s' token
  end.

(** No capital letter occurs in [s]. *)
Fixpoint noCapital (s : string) : bool :=
  match s with
  | EmptyString => true
  | String c s' => negb (isCapital c) && noCapital s'
  end.

(** *** The statements *)


(** For a manifest state with no record of the identity of [pkg],
    [Uninstall] fails with the not-found error and changes nothing. *)
Definition uninstallUnknown (w : World) (pkg : Package) : Prop :=
  forall records,
    manifestState w = Some records ->
    List.existsb (sameIdentity pkg) records = false ->
    Uninstall pkg w = (Err (notFound pkg), w).


(** Whatever sequence of records is saved, loading gives it back. The
    strings of the records are Go strings, any bytes, and [load] is the
    reading of the manifest. *)
Definition saveLoadRoundTrip (load : string -> option slice) : Prop :=
  forall s : slice, load (Bytes.Encode s) = Some s.

(** * The shell

    The interactive shell around the package manager: its built-in
    commands and the way a line is taken apart. What the shell asks of the
    operating system besides the files and the network of [World] (the
    environment, the working directory, the entries of a directory, the
    run of another program, the clock) is answered by a [Host]; the
    configuration, which the program reads from a file once and only reads
    afterwards, is an argument. *)

(** The ANSI colour codes of the shell. *)
Module Ansi.

Definition esc : ascii := "027"%char.
Definition Reset : string := String esc "[0m".
Definition BoldRed : string := String esc "[1;31m".
Definition DefaultRed : string := String esc "[0;31m".
Definition DefaultGreen : string := String esc "[0;32m".

End Ansi.

Record Config := mkConfig {
  PromptColors : gmap string string;
  FileColors : gmap string string;
  PromptFormat : string;
  Aliases : gmap string string;
}.

(** An entry of a directory as [os.ReadDir] gives it: its name, whether it
    is a directory, and the mode bits of its [Info], when that can be had. *)
Module Fs.

Record DirEntry := mkDirEntry {
  Name : string;
  IsDir : bool;
  Info : result Z;
}.

Definition ModeDir : Z := Z.shiftl 1 31.
Definition ModeSymlink : Z := Z.shiftl 1 27.

End Fs.

(** The state the shell works on: the world of the package manager, what
    has been written to the standard output (one entry for each write, the
    oldest first), and the working directory. *)
Record Shell := mkShell {
  world : World;
  stdout : list string;
  cwd : string;
}.

(** The streams the shell hands to a program it runs. *)
Inductive stdio := OnlyStdout | AllStreams.

Record Host := mkHost {
  Error : error -> string;                  (* err.Error() *)
  Getenv : string -> string;                (* os.Getenv *)
  Hostname : result string;                 (* os.Hostname *)
  Clock : Shell -> string;                  (* time.Now().Format("15:04:05") *)
  Getwd : Shell -> result string;           (* os.Getwd *)
  Chdir : string -> Shell -> result unit * Shell;       (* os.Chdir *)
  ReadDir : string -> Shell -> result (list Fs.DirEntry);  (* os.ReadDir *)
  Stat : string -> Shell -> result Z;       (* os.Stat, the mode bits *)
  Run : list string -> stdio -> Shell -> result unit * Shell;  (* exec.Cmd.Run *)
}.

(** A function of the shell returns, or panics with a message of the
    runtime; either way it leaves a state. *)
Inductive outcome (A : Type) :=
| Returned (a : A)
| Panicked (msg : string).

Arguments Returned {A} a.
Arguments Panicked {A} msg.

Definition Sh (A : Type) : Type := Shell -> outcome A * Shell.

Definition done {A} (a : A) : Sh A := fun sh => (Returned a, sh).

Definition panic {A} (msg : string) : Sh A := fun sh => (Panicked msg, sh).

Definition andThen {A B} (m : Sh A) (k : A -> Sh B) : Sh B :=
  fun sh =>
    match m sh with
    | (Returned a, sh') => k a sh'
    | (Panicked msg, sh') => (Panicked msg, sh')
    end.

Declare Scope shell_scope.
Delimit Scope shell_scope with shell.

Notation "x <- m ;; k" := (andThen m (fun x => k))
  (at level 20, m at level 99, k at level 200, only parsing) : shell_scope.

Local Open Scope shell_scope.
Local Open Scope string_scope.

(** [xs[i]] *)
Definition index {A} (xs : list A) (i : nat) : Sh A :=
  match xs !! i with
  | Some x => done x
  | None =>
      panic ("runtime error: index out of range [" ++ pretty i ++ "] with length "
             ++ pretty (List.length xs))
  end.

(** [xs[i:]] *)
Definition sliceFrom {A} (xs : list A) (i : nat) : Sh (list A) :=
  if (i <=? List.length xs)%nat then done (skipn i xs)
  else
    panic ("runtime error: slice bounds out of range [" ++ pretty i ++ ":"
           ++ pretty (List.length xs) ++ "]").

(** [for _, x := range xs { body }] *)
Fixpoint forEach {A} (xs : list A) (body : A -> Sh unit) : Sh unit :=
  match xs with
  | [] => done tt
  | x :: xs' => _ <- body x ;; forEach xs' body
  end.

(** A call of the package manager: it works on the world of the shell. *)
Definition call {A} (m : M A) : Sh (result A) :=
  fun sh =>
    let (r, w') := m (world sh) in
    (Returned r, mkShell w' (stdout sh) (cwd sh)).

Definition lineFeed : string := String "010"%char "".

(** [fmt.Print(s)] and [fmt.Println(s)] *)
Definition Print (s : string) : Sh unit :=
  fun sh => (Returned tt, mkShell (world sh) (stdout sh ++ [s])%list (cwd sh)).

Definition Println (s : string) : Sh unit := Print (s ++ lineFeed).

Section TheShell.

Variable decodeRelease : string -> option Release.
Variable host : Host.

Definition getColor (config : Config) (name fallback : string) : string :=
  match PromptColors config !! name with
  | Some color => color
  | None => fallback
  end.

Definition getCurrentDirectory : Sh string :=
  fun sh =>
    match Getwd host sh with
    | Ok dir => (Returned dir, sh)
    | Err _ => (Returned "unknown", sh)
    end.

Definition getCurrentTime : Sh string := fun sh => (Returned (Clock host sh), sh).

Definition getUserAndHost : string :=
  let user := Getenv host "USER" in
  let user := if String.eqb user "" then Getenv host "USERNAME" else user in
  let name := match Hostname host with
              | Ok name => name
              | Err _ => "unknown"
              end in
  user ++ "@" ++ name.

Definition replaceHomeWithTilde (path : string) : string :=
  let home := Getenv host "HOME" in
  let home := if String.eqb home "" then Getenv host "USERPROFILE" else home in
  if Strings.HasPrefix path home then "~" ++ Strings.TrimPrefix path home
  else path.

Definition generatePrompt (config : Config) : Sh string :=
  let userHost := getUserAndHost in
  dir <- getCurrentDirectory ;;
  let currentDir := replaceHomeWithTilde dir in
  currentTime <- getCurrentTime ;;
  user0 <- index (Strings.Split userHost "@") 0 ;;
  let user := getColor config "user" (String Ansi.esc "[1;33m") ++ user0 ++ Ansi.Reset in
  host1 <- index (Strings.Split userHost "@") 1 ;;
  let host := getColor config "host" (String Ansi.esc "[1;34m") ++ host1 ++ Ansi.Reset in
  let path := getColor config "path" (String Ansi.esc "[1;32m") ++ currentDir ++ Ansi.Reset in
  let time := getColor config "time" (String Ansi.esc "[1;35m") ++ currentTime ++ Ansi.Reset in
  let prompt := PromptFormat config in
  let prompt := Strings.ReplaceAll prompt "{user}" user in
  let prompt := Strings.ReplaceAll prompt "{host}" host in
  let prompt := Strings.ReplaceAll prompt "{path}" path in
  let prompt := Strings.ReplaceAll prompt "{time}" time in
  done (prompt ++ " $ ").

Definition isExecutable (filename : string) : Sh bool :=
  fun sh =>
    if String.eqb (GOOS (world sh)) "windows"
    then (Returned (Strings.HasSuffix filename ".exe" || Strings.HasSuffix filename ".bat"), sh)
    else
      match Stat host filename sh with
      | Err _ => (Returned false, sh)
      | Ok mode => (Returned (negb (Z.land mode 73 =? 0)%Z), sh)   (* 0111 *)
      end.

Definition isSymlink (file : Fs.DirEntry) : bool :=
  match Fs.Info file with
  | Ok mode => negb (Z.land mode Fs.ModeSymlink =? 0)%Z
  | Err _ => false
  end.

Definition getFileColor (config : Config) (file : Fs.DirEntry) : Sh string :=
  if Fs.IsDir file then done (getColor config "directory" (String Ansi.esc "[1;34m"))
  else if isSymlink file then done (getColor config "symlink" (String Ansi.esc "[1;33m"))
  else
    let ext := Strings.ToLower (Filepath.Ext (Fs.Name file)) in
    if String.eqb ext ".zip" || String.eqb ext ".tar" || String.eqb ext ".gz"
    then done (getColor config "compressed" (String Ansi.esc "[1;35m"))
    else if String.eqb ext ".mp4" || String.eqb ext ".jpg" || String.eqb ext ".png"
    then done (getColor config "media" (String Ansi.esc "[1;36m"))
    else
      executable <- isExecutable (Fs.Name file) ;;
      if executable
      then done (getColor config "executable" (String Ansi.esc "[1;32m"))
      else done "".

Definition customLs (config : Config) : Sh unit :=
  dir <- getCurrentDirectory ;;
  fun sh =>
    match ReadDir host dir sh with
    | Err err =>
        Println (Ansi.BoldRed ++ "[ERROR] Error reading directory: " ++ Error host err
                 ++ Ansi.Reset) sh
    | Ok files =>
        forEach files
          (fun file =>
             color <- getFileColor config file ;;
             Println (color ++ Fs.Name file ++ Ansi.Reset)) sh
    end.

Definition changeDirectory (path : string) : Sh (result unit) :=
  fun sh =>
    match Chdir host path sh with
    | (Err err, sh') =>
        (Returned (Err (errorString ("[ERROR] Cannot change directory: "
                                     ++ Error host err))), sh')
    | (Ok _, sh') => (Returned (Ok tt), sh')
    end.

Definition clearScreen : Sh unit :=
  fun sh =>
    if String.eqb (GOOS (world sh)) "windows"
    then (Returned tt, snd (Run host ["cmd"; "/c"; "cls"] OnlyStdout sh))
    else Print (String Ansi.esc "[H" ++ String Ansi.esc "[2J") sh.

Definition getHomeDirectory : string :=
  let home := Getenv host "HOME" in
  let home := if String.eqb home "" then Getenv host "USERPROFILE" else home in
  if String.eqb home "" then "." else home.

(** The package a [user/repo] argument names: the first two pieces of
    the argument around its slashes. *)
Definition packageOf (repo : string) : Sh Package :=
  user <- index (Strings.Split repo "/") 0 ;;
  name <- index (Strings.Split repo "/") 1 ;;
  done (mkPackage user name "" "").

Definition executeCommand (config : Config) (input : string) : Sh unit :=
  let args := Strings.Fields input in
  if (List.length args =? 0)%nat then done tt
  else
    first <- index args 0 ;;
    args <- match Aliases config !! first with
            | Some alias =>
                rest <- sliceFrom args 1 ;;
                done (Strings.Fields alias ++ rest)%list
            | None => done args
            end ;;
    command <- index args 0 ;;
    if String.eqb command "cd" then
      dir <- (if (1 <? List.length args)%nat then index args 1 else done ".") ;;
      let dir := if String.eqb dir "~" then getHomeDirectory else dir in
      err <- changeDirectory dir ;;
      match err with
      | Err err => Println (Ansi.BoldRed ++ Error host err ++ Ansi.Reset)
      | Ok _ => done tt
      end
    else if String.eqb command "ls" || String.eqb command "dir" then customLs config
    else if String.eqb command "clear" || String.eqb command "cls" then clearScreen
    else if String.eqb command "star" then
      if (List.length args <? 2)%nat
      then Println (Ansi.BoldRed
                    ++ "[ERROR] Missing subcommand. Use 'star install user/repo' or other commands."
                    ++ Ansi.Reset)
      else
        subcommand <- index args 1 ;;
        if String.eqb subcommand "install" then
          if (List.length args <? 3)%nat
          then Println (Ansi.BoldRed
                        ++ "[ERROR] Missing repository argument. Use 'star install user/repo'."
                        ++ Ansi.Reset)
          else
            repo <- index args 2 ;;
            _ <- Println (Ansi.DefaultGreen ++ "Installing " ++ repo ++ "..." ++ Ansi.Reset) ;;
            pkg <- packageOf repo ;;
            err <- call (Install decodeRelease pkg) ;;
            match err with
            | Err err =>
                Println (Ansi.BoldRed ++ "[ERROR] Installation failed: " ++ Error host err
                         ++ Ansi.Reset)
            | Ok _ =>
                Println (Ansi.DefaultGreen ++ "[SUCCESS] " ++ repo
                         ++ " installed successfully!" ++ Ansi.Reset)
            end
        else if String.eqb subcommand "list" then
          installed <- call ListInstalledStars ;;
          match installed with
          | Err err =>
              Println (Ansi.BoldRed ++ "[ERROR] Could not list installed packages: "
                       ++ Error host err ++ Ansi.Reset)
          | Ok installed =>
              forEach (items installed)
                (fun pkg =>
                   Print (Ansi.DefaultGreen ++ "- " ++ User pkg ++ "/" ++ Repo pkg ++ "@"
                          ++ Version pkg ++ lineFeed ++ Ansi.Reset))
          end
        else if String.eqb subcommand "uninstall" then
          if (List.length args <? 3)%nat
          then Println (Ansi.BoldRed
                        ++ "[ERROR] Missing repository argument. Use 'star uninstall user/repo'."
                        ++ Ansi.Reset)
          else
            repo <- index args 2 ;;
            _ <- Println (Ansi.DefaultRed ++ "Uninstalling " ++ repo ++ "..." ++ Ansi.Reset) ;;
            pkg <- packageOf repo ;;
            err <- call (Uninstall pkg) ;;
            match err with
            | Err err =>
                Println (Ansi.BoldRed ++ "[ERROR] Uninstallation failed: " ++ Error host err
                         ++ Ansi.Reset)
            | Ok _ =>
                Println (Ansi.DefaultGreen ++ "[SUCCESS] " ++ repo
                         ++ " uninstalled successfully!" ++ Ansi.Reset)
            end
        else Println (Ansi.BoldRed ++ "[ERROR] Unknown 'star' subcommand." ++ Ansi.Reset)
    else
      name <- index args 0 ;;
      rest <- sliceFrom args 1 ;;
      fun sh =>
        match Run host (name :: rest) AllStreams sh with
        | (Err err, sh') =>
            Println (Ansi.BoldRed ++ "[ERROR] " ++ Ansi.Reset ++ " " ++ Error host err) sh'
        | (Ok _, sh') => (Returned tt, sh')
        end.

End TheShell.

Local Close Scope shell_scope.
Local Open Scope list_scope.

(** ** Sample worlds *)

(** The release of the scenario of the specification. *)
Definition sampleRelease : Release :=
  mkRelease [mkAsset "tool-darwin-amd64.tar.gz" "https://dl.example/darwin";
             mkAsset "tool-linux-amd64.tar.gz" "https://dl.example/linux"] "v1.2".

(** A release whose asset is named so that it lands on the manifest. *)
Definition aliasRelease : Release :=
  mkRelease [mkAsset "linux-amd64/../.stars" "https://dl.example/alias"] "v2".

Definition sampleDecode (body : string) : option Release :=
  if String.eqb body "release-1" then Some sampleRelease
  else if String.eqb body "release-alias" then Some aliasRelease
  else None.

Definition idUR : Package := mkPackage "u" "r" "" "".
Definition idAlias : Package := mkPackage "u" "alias" "" "".

Definition sampleServer (past : list string) (url : string) : HttpResult :=
  if String.eqb url (releaseURL idUR) then Respond 200 "release-1"
  else if String.eqb url "https://dl.example/linux" then Respond 200 "BINARY"
  else if String.eqb url (releaseURL idAlias) then Respond 200 "release-alias"
  else if String.eqb url "https://dl.example/alias"
  then Respond 200 (Json.Encode (Slice [mkPackage "u" "alias" "v0" "old"]))
  else Respond 404 "".

(** A server that has no release for anyone. *)
Definition noServer (past : list string) (url : string) : HttpResult :=
  Respond 404 "".

(** A machine with nothing on it. *)
Definition freshWorld : World := mkWorld "linux" "amd64" ∅ sampleServer [].
Definition world386 : World := mkWorld "linux" "386" ∅ sampleServer [].
Definition unknownWorld : World := mkWorld "unknown" "unknown" ∅ sampleServer [].

Definition recUR : Package := mkPackage "u" "r" "v1.2" "tool-linux-amd64.tar.gz".
Definition recUR2 : Package := mkPackage "u" "r" "v1.0" "tool-old".
Definition recOther : Package := mkPackage "o" "p" "v3" "other-linux-amd64".

(** A world whose manifest lists [records] and whose install directory
    holds the files [files]. *)
Definition worldWith (records : slice) (files : list (string * string))
    (srv : list string -> string -> HttpResult) : World :=
  mkWorld "linux" "amd64"
    (<[manifestKey := RegularFile (Json.Encode records)]>
       (<["stars" := Directory]>
          (list_to_map (List.map (fun f => (Filepath.Join [installDir; fst f],
                                            RegularFile (snd f))) files))))
    srv [].

(** [u/r] is installed twice over, and [o/p] once. *)
Definition crowdedWorld : World :=
  worldWith (Slice [recOther; recUR; recUR2])
    [("tool-linux-amd64.tar.gz", "BINARY"); ("tool-old", "OLD");
     ("other-linux-amd64", "OTHER")] noServer.

(** [u/r] is listed, but its file is gone. *)
Definition danglingWorld : World := worldWith (Slice [recUR]) [] noServer.

(** [u/r] is installed, and the server has no release for it any more. *)
Definition installedOffline : World :=
  worldWith (Slice [recUR]) [("tool-linux-amd64.tar.gz", "BINARY")] noServer.

(** Two records, one with characters the encoder escapes. *)
Definition pkgA : Package := mkPackage "octo<cat>" "to\ol" "v1.0" "tool-linux-amd64".
Definition pkgB : Package := mkPackage "b" "r" "" "x".

(** A record with a letter beyond ASCII, U+00E9. *)
Definition pkgE : Package := mkPackage ("caf" ++ String "233" "") "r" "v1" "f".

(** Two records whose user is one byte that begins no rune: 0xFF, 0xFE. *)
Definition byteFF : Package := mkPackage (String "255" "") "r" "v1" "f".
Definition byteFE : Package := mkPackage (String "254" "") "r" "v1" "f".



(** A server that has the release of [u/r] but refuses every download. *)
Definition refusingServer (past : list string) (url : string) : HttpResult :=
  if String.eqb url (releaseURL idUR) then Respond 200 "release-1"
  else Respond 404 "".

Definition refusedWorld : World := mkWorld "linux" "amd64" ∅ refusingServer [].

(** A machine whose manifest is not a JSON document. *)
Definition corruptWorld : World :=
  mkWorld "linux" "amd64"
    (<[manifestKey := RegularFile "manifest of the stars"]> (<["stars" := Directory]> ∅))
    sampleServer [].

(** A release whose assets are named in capitals and in mixed case, the
    first of them without a download URL. *)
Definition mixedCaseRelease : Release :=
  mkRelease [mkAsset "TOOL-DARWIN-AMD64.TGZ" "";
             mkAsset "Tool-Linux-AMD64.tgz" "https://dl.example/linux";
             mkAsset "tool-linux-amd64.tgz" "https://dl.example/linux-2"] "v2.0".

Definition mixedCaseDecode (body : string) : option Release :=
  if String.eqb body "release-mixed" then Some mixedCaseRelease else None.

Definition mixedCaseServer (past : list string) (url : string) : HttpResult :=
  if String.eqb url (releaseURL idUR) then Respond 200 "release-mixed"
  else if String.eqb url "https://dl.example/linux" then Respond 200 "BINARY"
  else Respond 404 "".

Definition mixedCaseWorld : World := mkWorld "linux" "amd64" ∅ mixedCaseServer [].
Definition mixedCaseMac : World := mkWorld "darwin" "amd64" ∅ mixedCaseServer [].
Definition mixedCase386 : World := mkWorld "linux" "386" ∅ mixedCaseServer [].

(** ** Vocabulary of the shell *)

(** The configuration with its aliases taken away, and with other colours
    for the files. *)
Definition withoutAliases (config : Config) : Config :=
  mkConfig (PromptColors config) (FileColors config) (PromptFormat config) ∅.

Definition withFileColors (config : Config) (colors : gmap string string) : Config :=
  mkConfig (PromptColors config) colors (PromptFormat config) (Aliases config).

(** A word: a string that is not empty and holds no white space. *)
Fixpoint spaceFree (s : string) : bool :=
  match s with
  | EmptyString => true
  | String c s' => negb (Strings.isSpace c) && spaceFree s'
  end.

Definition isWord (s : string) : Prop := s <> "" /\ spaceFree s = true.

(** A blank line: nothing but white space. *)
Fixpoint blank (s : string) : bool :=
  match s with
  | EmptyString => true
  | String c s' => Strings.isSpace c && blank s'
  end.

(** The state of the shell after it has written [texts] and nothing else
    has happened. *)
Definition wrote (sh : Shell) (texts : list string) : Shell :=
  mkShell (world sh) (stdout sh ++ texts) (cwd sh).

(** What [star list] writes for a record. *)
Definition listLine (pkg : Package) : string :=
  (Ansi.DefaultGreen ++ "- " ++ User pkg ++ "/" ++ Repo pkg ++ "@" ++ Version pkg
   ++ lineFeed ++ Ansi.Reset)%string.

(** The panic of an index that is not below the length. *)
Definition outOfRange (i n : nat) : string :=
  ("runtime error: index out of range [" ++ pretty i ++ "] with length " ++ pretty n)%string.

(** ** A sample host *)

Definition sampleErrno (code : errno) : string :=
  match code with
  | ENOENT => "no such file or directory"
  | EISDIR => "is a directory"
  | ENOTDIR => "not a directory"
  | ENOTEMPTY => "directory not empty"
  | EINVAL => "invalid argument"
  end.

Fixpoint sampleError (e : error) : string :=
  match e with
  | errorString msg => msg
  | wrapError msg err => msg ++ ": " ++ sampleError err
  | PathError op path code => op ++ " " ++ path ++ ": " ++ sampleErrno code
  | SyntaxError => "unexpected end of JSON input"
  end.

Definition sampleEnv (key : string) : string :=
  if String.eqb key "HOME" then "/home/u"
  else if String.eqb key "USER" then "u"
  else "".

(** A host on which no directory can be entered or read and no program
    can be run. *)
Definition sampleHost : Host :=
  mkHost sampleError sampleEnv (Ok "box") (fun _ => "12:00:00")
    (fun sh => Ok (cwd sh))
    (fun path sh => (Err (PathError "chdir" path ENOENT), sh))
    (fun path _ => Err (PathError "open" path ENOENT))
    (fun path _ => Err (PathError "stat" path ENOENT))
    (fun argv _ sh => (Err (errorString "executable file not found in $PATH"), sh)).

(** A host whose working directory holds two directories. *)
Definition listingHost : Host :=
  mkHost sampleError sampleEnv (Ok "box") (fun _ => "12:00:00")
    (fun sh => Ok (cwd sh))
    (fun path sh => (Err (PathError "chdir" path ENOENT), sh))
    (fun path _ => Ok [Fs.mkDirEntry "bin" true (Ok Fs.ModeDir);
                       Fs.mkDirEntry "src.zip" true (Ok Fs.ModeDir)])
    (fun path _ => Err (PathError "stat" path ENOENT))
    (fun argv _ sh => (Err (errorString "executable file not found in $PATH"), sh)).

Definition sampleConfig : Config :=
  mkConfig (<["directory" := "bold-blue"]> ∅) (<["directory" := "red"]> ∅)
    "{user}@{host} {path}"
    (<["i" := "star install"]> (<["nothing" := " "]> ∅)).

Definition sampleShell : Shell := mkShell freshWorld [] "/home/u/work".
Definition crowdedShell : Shell := mkShell crowdedWorld [] "/home/u/work".

(** * Properties *)

#[local] Arguments String.append !s1 s2 : simpl nomatch.
#[local] Arguments Filepath.Clean : simpl never.
#[local] Arguments Filepath.Dir : simpl never.
#[local] Arguments Filepath.Join : simpl never.
#[local] Arguments Json.Decode : simpl never.
#[local] Arguments Json.Encode : simpl never.

(** ** Strings *)

Lemma append_assoc (a b c : string) : ((a ++ b) ++ c = a ++ (b ++ c))%string.
Proof. induction a as [|x a IH]; simpl; [reflexivity | now rewrite IH]. Qed.

Lemma append_cons (c : ascii) (a b : string) :
  (String c a ++ b)%string = String c (a ++ b).
Proof. reflexivity. Qed.

Lemma length_append (a b : string) :
  String.length (a ++ b) = String.length a + String.length b.
Proof. induction a as [|c a IH]; simpl; [reflexivity | now rewrite IH]. Qed.

Lemma ToLower_append (a b : string) :
  Strings.ToLower (a ++ b) = (Strings.ToLower a ++ Strings.ToLower b)%string.
Proof. induction a as [|c a IH]; cbn; [reflexivity | now rewrite IH]. Qed.

(** ** The decoder reads what the encoder writes *)

Lemma unquoteBody_escape (s rest : string) :
  Json.unquoteBody (Json.escape s ++ String quote rest) = Some (s, rest).
Proof.
  induction s as [|c s IH]; [reflexivity|].
  cbn [Json.escape]. rewrite append_assoc.
  destruct c as [[] [] [] [] [] [] [] []];
    match goal with
    | |- context [Json.escapeRune ?c] =>
        let e := eval vm_compute in (Json.escapeRune c) in
        change (Json.escapeRune c) with e
    end; simpl; rewrite IH; reflexivity.
Qed.

Lemma parseString_quoted (s rest : string) :
  Json.parseString (String quote (Json.escape s ++ String quote rest)) = Some (s, rest).
Proof. cbn [Json.parseString]. change (quote =? quote)%char with true. cbv iota. apply unquoteBody_escape. Qed.

Lemma parseValue_quoted (s rest : string) :
  Json.parseValue (String quote (Json.escape s ++ String quote rest))
  = Some (Some s, rest).
Proof.
  unfold Json.parseValue. rewrite parseString_quoted.
  destruct (Json.escape s ++ String quote rest)%string; reflexivity.
Qed.

Lemma member_unfold (k v rest : string) :
  Json.escape k = k ->
  (Json.member k v ++ rest)%string =
  String quote (Json.escape k ++ String quote (String ":"
    (String quote (Json.escape v ++ String quote rest)))).
Proof.
  intros ->. unfold Json.member, Json.quoteString.
  repeat (rewrite ?append_assoc; simpl). reflexivity.
Qed.

Lemma skipSpace_cons (c : ascii) (s : string) :
  Json.isSpace c = false -> Json.skipSpace (String c s) = String c s.
Proof. intros H. cbn [Json.skipSpace]. now rewrite H. Qed.

Ltac skip_token :=
  rewrite skipSpace_cons by reflexivity.

Lemma parseMembers_comma (fuel : nat) (k v rest : string) (p : Package) :
  Json.escape k = k ->
  Json.parseMembers (S fuel) (Json.member k v ++ String "," rest) p
  = Json.parseMembers fuel (Json.skipSpace rest) (Json.setField k v p).
Proof.
  intros Hk. rewrite member_unfold by exact Hk.
  cbn [Json.parseMembers]. rewrite parseString_quoted.
  skip_token. change (negb (":" =? ":")%char) with false. cbv iota.
  skip_token. rewrite parseValue_quoted. skip_token. reflexivity.
Qed.

Lemma parseMembers_brace (fuel : nat) (k v rest : string) (p : Package) :
  Json.escape k = k ->
  Json.parseMembers (S fuel) (Json.member k v ++ String "}" rest) p
  = Some (Json.setField k v p, rest).
Proof.
  intros Hk. rewrite member_unfold by exact Hk.
  cbn [Json.parseMembers]. rewrite parseString_quoted.
  skip_token. change (negb (":" =? ":")%char) with false. cbv iota.
  skip_token. rewrite parseValue_quoted. skip_token. reflexivity.
Qed.

Lemma encodePackage_unfold (p : Package) (rest : string) :
  (Json.encodePackage p ++ rest)%string =
  String "{" (Json.member "user" (User p) ++ String ","
    (Json.member "repo" (Repo p) ++ String ","
      (Json.member "version" (Version p) ++ String ","
        (Json.member "file" (File p) ++ String "}" rest)))).
Proof.
  unfold Json.encodePackage. repeat (rewrite ?append_assoc; simpl). reflexivity.
Qed.

Lemma member_head (k v rest : string) :
  exists s, (Json.member k v ++ rest)%string = String quote s.
Proof. eexists. reflexivity. Qed.

Lemma parseObject_encode (p : Package) (rest : string) (fuel : nat) :
  4 <= fuel ->
  Json.parseObject fuel (Json.encodePackage p ++ rest) = Some (p, rest).
Proof.
  intros Hfuel.
  destruct fuel as [|[|[|[|fuel]]]]; try lia.
  rewrite encodePackage_unfold. unfold Json.parseObject.
  change (negb ("{" =? "{")%char) with false. cbv iota.
  destruct (member_head "user" (User p) (String ","
    (Json.member "repo" (Repo p) ++ String ","
      (Json.member "version" (Version p) ++ String ","
        (Json.member "file" (File p) ++ String "}" rest))))) as [s Hs].
  rewrite Hs. skip_token. change (quote =? "}")%char with false. cbv iota.
  rewrite <- Hs.
  rewrite parseMembers_comma by reflexivity.
  destruct (member_head "repo" (Repo p) (String ","
      (Json.member "version" (Version p) ++ String ","
        (Json.member "file" (File p) ++ String "}" rest)))) as [s2 Hs2].
  rewrite Hs2. skip_token. rewrite <- Hs2.
  rewrite parseMembers_comma by reflexivity.
  destruct (member_head "version" (Version p) (String ","
        (Json.member "file" (File p) ++ String "}" rest))) as [s3 Hs3].
  rewrite Hs3. skip_token. rewrite <- Hs3.
  rewrite parseMembers_comma by reflexivity.
  destruct (member_head "file" (File p) (String "}" rest)) as [s4 Hs4].
  rewrite Hs4. skip_token. rewrite <- Hs4.
  rewrite parseMembers_brace by reflexivity.
  destruct p; reflexivity.
Qed.

Lemma encodePackage_head (p : Package) (rest : string) :
  exists s, (Json.encodePackage p ++ rest)%string = String "{" (String quote s).
Proof. rewrite encodePackage_unfold. eexists. reflexivity. Qed.

Lemma encodePackage_length (p : Package) : 2 <= String.length (Json.encodePackage p).
Proof.
  destruct (encodePackage_head p "") as [s Hs].
  assert (H : String.length (Json.encodePackage p ++ "") = String.length (Json.encodePackage p))
    by (rewrite length_append; simpl; lia).
  rewrite <- H, Hs. simpl. lia.
Qed.

Lemma encodeElements_cons (p : Package) (ps : list Package) (rest : string) :
  (Json.encodeElements (p :: ps) ++ rest)%string =
  (Json.encodePackage p ++
     match ps with
     | [] => rest
     | _ :: _ => String "," (Json.encodeElements ps ++ rest)
     end)%string.
Proof.
  destruct ps as [|q ps]; [reflexivity|].
  cbn [Json.encodeElements]. rewrite !append_assoc. reflexivity.
Qed.

Lemma encodeElements_length (ps : list Package) :
  2 * length ps <= String.length (Json.encodeElements ps).
Proof.
  induction ps as [|p ps IH]; [simpl; lia|].
  assert (H : String.length (Json.encodeElements (p :: ps) ++ "")
              = String.length (Json.encodeElements (p :: ps)))
    by (rewrite length_append; simpl; lia).
  rewrite <- H, encodeElements_cons, length_append.
  pose proof (encodePackage_length p).
  destruct ps as [|q ps]; cbn [length] in *; [cbn [String.length]; lia|].
  clear H. cbn [String.length]. rewrite length_append. cbn [String.length]. lia.
Qed.

Lemma parseElement_encode (p : Package) (rest : string) (fuel : nat) :
  4 <= fuel ->
  Json.parseElement fuel (Json.encodePackage p ++ rest) = Some (p, rest).
Proof.
  intros Hfuel. unfold Json.parseElement.
  destruct (encodePackage_head p rest) as [s Hs].
  rewrite Hs. cbn [Strings.HasPrefix]. change ("{" =? "n")%char with false.
  cbv iota beta. cbn [andb]. cbv iota. rewrite <- Hs. now apply parseObject_encode.
Qed.

Lemma parseElements_encode (ps : list Package) (rest : string) (fuel : nat) :
  ps <> [] ->
  length ps + 4 <= fuel ->
  Json.parseElements fuel (Json.encodeElements ps ++ String "]" rest)
  = Some (ps, rest).
Proof.
  revert fuel. induction ps as [|p ps IH]; intros fuel Hne Hfuel; [congruence|].
  destruct fuel as [|fuel]; [lia|]. cbn [length] in Hfuel.
  rewrite encodeElements_cons. cbn [Json.parseElements].
  rewrite parseElement_encode by lia.
  destruct ps as [|q ps].
  - skip_token. reflexivity.
  - skip_token. change ("," =? ",")%char with true. cbv iota.
    destruct (encodePackage_head q
                match ps with
                | [] => String "]" rest
                | _ :: _ => String "," (Json.encodeElements ps ++ String "]" rest)
                end) as [s Hs].
    rewrite encodeElements_cons, Hs. skip_token. rewrite <- Hs, <- encodeElements_cons.
    rewrite IH; [reflexivity | congruence | lia].
Qed.

(** Decoding what the encoder wrote gives the slice back, the nil slice as
    the nil slice. *)
Lemma Decode_Encode (s : slice) : Json.Decode (Json.Encode s) = Some s.
Proof.
  destruct s as [|ps]; [reflexivity|].
  destruct ps as [|p ps]; [reflexivity|].
  unfold Json.Encode, Json.Marshal, Json.Decode.
  rewrite !append_assoc, !append_cons. cbn [String.append].
  set (text := String "[" _).
  assert (Hlen : length (p :: ps) + 4 <= String.length text).
  { subst text. cbn [String.length]. rewrite length_append. cbn [String.length].
    pose proof (encodeElements_length (p :: ps)) as H. cbn [length] in *. lia. }
  subst text. skip_token.
  cbn [Strings.HasPrefix]. change ("[" =? "n")%char with false. cbn [andb]. cbv iota.
  change (negb ("[" =? "[")%char) with false. cbv iota.
  destruct (encodePackage_head p
              match ps with
              | [] => String "]" (String Json.newline "")
              | _ :: _ => String "," (Json.encodeElements ps ++ String "]" (String Json.newline ""))
              end) as [s Hs].
  set (n := String.length _) in *.
  rewrite encodeElements_cons, Hs. skip_token.
  change ("{" =? "]")%char with false. cbv iota.
  rewrite <- Hs, <- encodeElements_cons.
  rewrite parseElements_encode; [reflexivity | congruence | exact Hlen].
Qed.

(** ** The encoder on bytes

    On the UTF-8 form of a text the encoder on bytes writes the UTF-8 form
    of what module [Json] writes for the text. *)

Lemma encode_app (a b : string) :
  Utf8.encode (a ++ b) = (Utf8.encode a ++ Utf8.encode b)%string.
Proof.
  induction a as [|c a IH]; [reflexivity|].
  change (Utf8.encode (String c a ++ b))
    with (Utf8.encodeRune c ++ Utf8.encode (a ++ b))%string.
  change (Utf8.encode (String c a)) with (Utf8.encodeRune c ++ Utf8.encode a)%string.
  now rewrite IH, append_assoc.
Qed.

Lemma escapeRune_ascii (c : ascii) :
  (N_of_ascii c <? 0x80)%N = true -> Utf8.encode (Json.escapeRune c) = Json.escapeRune c.
Proof.
  destruct c as [[] [] [] [] [] [] [] []]; try discriminate; intros _; reflexivity.
Qed.

Lemma escapeFrom_rune (c : ascii) (rest : string) :
  Bytes.escapeFrom 0 true (Utf8.encodeRune c ++ rest)
  = (Utf8.encode (Json.escapeRune c) ++ Bytes.escapeFrom 0 true rest)%string.
Proof.
  destruct c as [[] [] [] [] [] [] [] []]; reflexivity.
Qed.

Lemma escape_encode (s : string) :
  Bytes.escape (Utf8.encode s) = Utf8.encode (Json.escape s).
Proof.
  unfold Bytes.escape. induction s as [|c s IH]; [reflexivity|].
  cbn [Utf8.encode Json.escape]. now rewrite escapeFrom_rune, encode_app, IH.
Qed.

Lemma quoteString_encode (s : string) :
  Bytes.quoteString (Utf8.encode s) = Utf8.encode (Json.quoteString s).
Proof.
  unfold Bytes.quoteString, Json.quoteString.
  change (String quote (Json.escape s ++ String quote ""))
    with (String quote "" ++ (Json.escape s ++ String quote ""))%string.
  rewrite !encode_app, escape_encode. reflexivity.
Qed.

Lemma encode_ascii (s : string) :
  forallb (fun c => (N_of_ascii c <? 0x80)%N) (list_ascii_of_string s) = true ->
  Utf8.encode s = s.
Proof.
  induction s as [|c s IH]; [reflexivity|]. cbn [list_ascii_of_string forallb].
  intros H. apply andb_true_iff in H as [Hc Hs].
  cbn [Utf8.encode]. unfold Utf8.encodeRune. rewrite Hc, (IH Hs). reflexivity.
Qed.

Lemma member_encode (key value : string) :
  forallb (fun c => (N_of_ascii c <? 0x80)%N) (list_ascii_of_string key) = true ->
  Bytes.member key (Utf8.encode value) = Utf8.encode (Json.member key value).
Proof.
  intros Hk. unfold Bytes.member, Json.member.
  change (String quote (key ++ String quote (":" ++ Json.quoteString value)))
    with (String quote "" ++ (key ++ (String quote ":" ++ Json.quoteString value)))%string.
  rewrite !encode_app, (encode_ascii key Hk), quoteString_encode. reflexivity.
Qed.

Lemma encodePackage_encode (p : Package) :
  Bytes.encodePackage (Bytes.ofPackage p) = Utf8.encode (Json.encodePackage p).
Proof.
  unfold Bytes.encodePackage, Json.encodePackage, Bytes.ofPackage. cbn [User Repo Version File].
  rewrite !encode_app, !member_encode by reflexivity. reflexivity.
Qed.

Lemma encodeElements_encode (ps : list Package) :
  Bytes.encodeElements (List.map Bytes.ofPackage ps) = Utf8.encode (Json.encodeElements ps).
Proof.
  induction ps as [|p ps IH]; [reflexivity|].
  destruct ps as [|q ps]; [apply encodePackage_encode|].
  change (Bytes.encodeElements (List.map Bytes.ofPackage (p :: q :: ps)))
    with (Bytes.encodePackage (Bytes.ofPackage p) ++ "," ++
          Bytes.encodeElements (List.map Bytes.ofPackage (q :: ps)))%string.
  change (Json.encodeElements (p :: q :: ps))
    with (Json.encodePackage p ++ "," ++ Json.encodeElements (q :: ps))%string.
  rewrite !encode_app, IH, encodePackage_encode. reflexivity.
Qed.

Lemma Encode_encode (s : slice) :
  Bytes.Encode (Bytes.ofSlice s) = Utf8.encode (Json.Encode s).
Proof.
  unfold Bytes.Encode, Json.Encode. rewrite encode_app.
  destruct s as [|ps]; [reflexivity|].
  cbn [Bytes.ofSlice Bytes.Marshal Json.Marshal].
  change ("[" ++ Json.encodeElements ps ++ "]")%string
    with ("[" ++ (Json.encodeElements ps ++ "]"))%string.
  rewrite !encode_app, encodeElements_encode. reflexivity.
Qed.

(** ** The manifest on the file system *)

Lemma manifestKey_eq : manifestKey = "stars/.stars".
Proof. reflexivity. Qed.

Lemma Clean_starFile : Filepath.Clean starFile = manifestKey.
Proof. reflexivity. Qed.

Lemma Clean_installDir : Filepath.Clean installDir = "stars".
Proof. reflexivity. Qed.

Lemma Dir_manifestKey : Filepath.Dir manifestKey = "stars".
Proof. reflexivity. Qed.


Lemma isDir_manifestKey (m : gmap string node) :
  Os.isDir m manifestKey =
  match m !! manifestKey with Some Directory => true | _ => false end.
Proof. reflexivity. Qed.

Lemma isDir_stars (m : gmap string node) :
  Os.isDir m "stars" =
  match m !! "stars" with Some Directory => true | _ => false end.
Proof. reflexivity. Qed.

(** What [listInstalledPackages] returns, by what lies at the manifest's
    path. It never changes the world. *)
Lemma listInstalledPackages_spec (w : World) :
  listInstalledPackages w =
  match fs w !! manifestKey with
  | Some (RegularFile text) =>
      match Json.Decode text with
      | Some s => (Ok s, w)
      | None => (Err (wrapError "failed to decode .stars file" SyntaxError), w)
      end
  | Some Directory =>
      (Err (wrapError "failed to decode .stars file"
              (PathError "read" starFile EISDIR)), w)
  | None => (Err (PathError "open" starFile (Os.missing (fs w) manifestKey)), w)
  end.
Proof.
  unfold listInstalledPackages, bind, Errorf_w, Os.Open, Os.Read, Os.exists_.
  rewrite Clean_starFile, isDir_manifestKey.
  destruct (fs w !! manifestKey) as [[text|]|] eqn:E; cbn [orb Os.key]; rewrite ?E.
  - destruct (Json.Decode text); reflexivity.
  - reflexivity.
  - reflexivity.
Qed.

Lemma listInstalledPackages_world (w w' : World) (r : result slice) :
  listInstalledPackages w = (r, w') -> w' = w.
Proof.
  rewrite listInstalledPackages_spec.
  destruct (fs w !! manifestKey) as [[text|]|]; [destruct (Json.Decode text)|..];
    intros [= _ <-]; reflexivity.
Qed.

(** What [saveInstalledPackages] does: it fails when the manifest's path is
    a directory or the install directory is missing, and otherwise leaves
    the encoded packages in the manifest. *)
Lemma saveInstalledPackages_spec (s : slice) (w : World) :
  saveInstalledPackages s w =
  if Os.isDir (fs w) manifestKey
  then (Err (wrapError "failed to create .stars file"
               (PathError "open" starFile EISDIR)), w)
  else if Os.isDir (fs w) "stars"
  then (Ok tt, withFs w (<[manifestKey := RegularFile (Json.Encode s)]> (fs w)))
  else (Err (wrapError "failed to create .stars file"
               (PathError "open" starFile (Os.missing (fs w) manifestKey))), w).
Proof.
  unfold saveInstalledPackages, bind, Errorf_w, Os.Create, Os.Write.
  rewrite Clean_starFile, Dir_manifestKey.
  destruct (Os.isDir (fs w) manifestKey); [reflexivity|].
  destruct (Os.isDir (fs w) "stars"); [|reflexivity].
  cbn [Os.key fs withFs]. rewrite lookup_insert_eq.
  unfold withFs. cbn [GOOS GOARCH fs server requests].
  rewrite insert_insert_eq. reflexivity.
Qed.

(** Loading after a save that succeeded gives back what was saved. *)
Lemma list_after_save (s : slice) (w w' : World) :
  saveInstalledPackages s w = (Ok tt, w') ->
  listInstalledPackages w' = (Ok s, w').
Proof.
  rewrite saveInstalledPackages_spec.
  destruct (Os.isDir (fs w) manifestKey); [discriminate|].
  destruct (Os.isDir (fs w) "stars"); [|discriminate].
  intros [= <-]. rewrite listInstalledPackages_spec. cbn [fs withFs].
  rewrite lookup_insert_eq, Decode_Encode. reflexivity.
Qed.


(** ** [Uninstall] *)

Lemma Clean_nonempty (path : string) : Filepath.Clean path <> "".
Proof.
  unfold Filepath.Clean.
  destruct (String.eqb path ""); [discriminate|].
  destruct (Strings.HasPrefix path "/"); [discriminate|].
  destruct (String.eqb_spec
              (Strings.Join (rev (fold_left (Filepath.cleanStep false)
                                    (Filepath.pathElements path) [])) "/") "");
    [discriminate | assumption].
Qed.

Lemma Join_installDir (f : string) :
  Filepath.Join [installDir; f] = Filepath.Clean (installDir ++ "/" ++ f).
Proof. reflexivity. Qed.

Lemma Join_installDir_nonempty (f : string) :
  String.eqb (Filepath.Join [installDir; f]) "" = false.
Proof.
  rewrite Join_installDir. apply String.eqb_neq, Clean_nonempty.
Qed.

Lemma locateFile_find (ps : list Package) (pkg : Package) (filePath : string) :
  locateFile ps pkg filePath =
  match List.find (sameIdentity pkg) ps with
  | Some p => Filepath.Join [installDir; File p]
  | None => filePath
  end.
Proof.
  induction ps as [|p ps IH]; [reflexivity|].
  cbn [locateFile List.find]. unfold sameIdentity at 1.
  destruct (String.eqb (User p) (User pkg) && String.eqb (Repo p) (Repo pkg));
    [reflexivity | exact IH].
Qed.

Lemma find_existsb {A} (f : A -> bool) (l : list A) :
  List.existsb f l = false -> List.find f l = None.
Proof.
  induction l as [|x l IH]; [reflexivity|]. cbn.
  destruct (f x); [discriminate | exact IH].
Qed.

Lemma keepOthers_filter (ps : list Package) (pkg : Package) (acc : slice) :
  keepOthers ps pkg acc =
  match List.filter (fun p => negb (sameIdentity pkg p)) ps with
  | [] => acc
  | kept => Slice (items acc ++ kept)
  end.
Proof.
  revert acc. induction ps as [|p ps IH]; intros acc; [reflexivity|].
  cbn [keepOthers List.filter]. rewrite IH. unfold sameIdentity at 2.
  rewrite negb_andb.
  destruct (negb (String.eqb (User p) (User pkg)) || negb (String.eqb (Repo p) (Repo pkg))).
  - unfold append. cbn [items].
    destruct (List.filter _ ps) as [|q kept]; [reflexivity|].
    rewrite <- app_assoc. reflexivity.
  - reflexivity.
Qed.

Lemma keepOthers_items (ps : list Package) (pkg : Package) :
  items (keepOthers ps pkg nilSlice)
  = List.filter (fun p => negb (sameIdentity pkg p)) ps.
Proof.
  rewrite keepOthers_filter.
  destruct (List.filter _ ps); reflexivity.
Qed.

Lemma Remove_spec (name : string) (w : World) :
  Os.Remove name w =
  if String.eqb (Filepath.Clean name) "."
  then (Err (PathError "remove" name EINVAL), w)
  else if Filepath.above (Filepath.Clean name)
  then (Err (PathError "remove" name ENOTEMPTY), w)
  else
    match fs w !! Filepath.Clean name with
    | Some (RegularFile _) => (Ok tt, withFs w (delete (Filepath.Clean name) (fs w)))
    | Some Directory =>
        if Os.isEmptyDir (fs w) (Filepath.Clean name)
        then (Ok tt, withFs w (delete (Filepath.Clean name) (fs w)))
        else (Err (PathError "remove" name ENOTEMPTY), w)
    | None =>
        (Err (PathError "remove" name (Os.missing (fs w) (Filepath.Clean name))), w)
    end.
Proof. reflexivity. Qed.

Lemma Remove_Ok (name : string) (w w1 : World) :
  Os.Remove name w = (Ok tt, w1) ->
  is_Some (fs w !! Filepath.Clean name) /\
  w1 = withFs w (delete (Filepath.Clean name) (fs w)).
Proof.
  rewrite Remove_spec.
  destruct (String.eqb (Filepath.Clean name) "."); [discriminate|].
  destruct (Filepath.above (Filepath.Clean name)); [discriminate|].
  destruct (fs w !! Filepath.Clean name) as [[c|]|]; [| |discriminate].
  - intros [= <-]. eauto.
  - destruct (Os.isEmptyDir _ _); [|discriminate]. intros [= <-]. eauto.
Qed.

Lemma Remove_Err (name : string) (w w1 : World) (e : error) :
  Os.Remove name w = (Err e, w1) -> w1 = w.
Proof.
  rewrite Remove_spec.
  destruct (String.eqb (Filepath.Clean name) "."); [now intros [= _ <-]|].
  destruct (Filepath.above (Filepath.Clean name)); [now intros [= _ <-]|].
  destruct (fs w !! Filepath.Clean name) as [[c|]|]; [discriminate| |].
  - destruct (Os.isEmptyDir _ _); [discriminate|]. now intros [= _ <-].
  - now intros [= _ <-].
Qed.

(** [Uninstall], step by step. *)
Lemma Uninstall_spec (pkg : Package) (w : World) :
  Uninstall pkg w =
  match listInstalledPackages w with
  | (Err e, _) => (Err (wrapError "failed to list installed packages" e), w)
  | (Ok packages, _) =>
      match List.find (sameIdentity pkg) (items packages) with
      | None => (Err (notFound pkg), w)
      | Some p =>
          match Os.Remove (Filepath.Join [installDir; File p]) w with
          | (Err e, _) => (Err (wrapError "failed to remove executable" e), w)
          | (Ok _, w1) =>
              Errorf_w "failed to update stars file"
                (saveInstalledPackages (keepOthers (items packages) pkg nilSlice)) w1
          end
      end
  end.
Proof.
  unfold Uninstall, bind. unfold Errorf_w at 1.
  destruct (listInstalledPackages w) as [[packages|e] w0] eqn:El;
    pose proof (listInstalledPackages_world _ _ _ El) as ->; [|reflexivity].
  rewrite locateFile_find.
  destruct (List.find (sameIdentity pkg) (items packages)) as [p|]; [|reflexivity].
  rewrite Join_installDir_nonempty. unfold Errorf_w at 1.
  destruct (Os.Remove (Filepath.Join [installDir; File p]) w) as [[[]|e] w1] eqn:Er.
  - reflexivity.
  - now rewrite (Remove_Err _ _ _ _ Er).
Qed.

(** What a successful [Uninstall] found and did. *)
Lemma Uninstall_Ok_inv (pkg : Package) (w w' : World) :
  Uninstall pkg w = (Ok tt, w') ->
  exists s p,
    listInstalledPackages w = (Ok s, w) /\
    List.find (sameIdentity pkg) (items s) = Some p /\
    let k := Filepath.Clean (Filepath.Join [installDir; File p]) in
    is_Some (fs w !! k) /\
    Os.isDir (delete k (fs w)) "stars" = true /\
    Os.isDir (delete k (fs w)) manifestKey = false /\
    w' = withFs w (<[manifestKey :=
                      RegularFile (Json.Encode (keepOthers (items s) pkg nilSlice))]>
                     (delete k (fs w))).
Proof.
  rewrite Uninstall_spec.
  destruct (listInstalledPackages w) as [[s|e] w0] eqn:El; [|discriminate].
  pose proof (listInstalledPackages_world _ _ _ El) as ->.
  destruct (List.find (sameIdentity pkg) (items s)) as [p|] eqn:Ef; [|discriminate].
  destruct (Os.Remove (Filepath.Join [installDir; File p]) w) as [[[]|e] w1] eqn:Er;
    [|discriminate].
  apply Remove_Ok in Er as [Hsome ->].
  unfold Errorf_w. rewrite saveInstalledPackages_spec. cbn [fs withFs].
  destruct (Os.isDir _ manifestKey) eqn:Em; [discriminate|].
  destruct (Os.isDir _ "stars") eqn:Ed; [|discriminate].
  intros [= <-]. exists s, p. repeat split; assumption || reflexivity.
Qed.

(** ** [Install] *)

Lemma Errorf_w_Err {A} (msg : string) (m : M A) (w w' : World) (e : error) :
  Errorf_w msg m w = (Err e, w') -> exists e0, e = wrapError msg e0.
Proof.
  unfold Errorf_w. destruct (m w) as [[a|e0] w0]; [discriminate|].
  intros [= <- _]. eauto.
Qed.

Lemma MkdirAll_installDir_spec (w : World) :
  Os.MkdirAll installDir w =
  if Os.isDir (fs w) "stars" then (Ok tt, w)
  else match fs w !! "stars" with
       | Some (RegularFile _) => (Err (PathError "mkdir" installDir ENOTDIR), w)
       | _ => (Ok tt, withFs w (<["stars" := Directory]> (fs w)))
       end.
Proof.
  unfold Os.MkdirAll. rewrite Clean_installDir.
  destruct (Os.isDir (fs w) "stars") eqn:Ed; [reflexivity|].
  change (Os.prefixes "stars") with ["stars"]. cbn [Os.mkdirs].
  rewrite isDir_stars in Ed. rewrite isDir_stars.
  destruct (fs w !! "stars") as [[c|]|]; try reflexivity. discriminate.
Qed.

Lemma downloadExecutable_spec (url destPath : string) (w : World) :
  downloadExecutable url destPath w =
  let w0 := withRequests w (requests w ++ [url]) in
  match server w (requests w) url with
  | TransportError e => (Err (wrapError "failed to download file" e), w0)
  | Respond code body =>
      if negb (code =? Http.StatusOK)%Z
      then (Err (errorString ("failed to download file: status code " ++ pretty code)), w0)
      else if Os.isDir (fs w) (Filepath.Clean destPath)
      then (Err (wrapError "failed to create file" (PathError "open" destPath EISDIR)), w0)
      else if Os.isDir (fs w) (Filepath.Dir (Filepath.Clean destPath))
      then (Ok tt, withFs w0 (<[Filepath.Clean destPath := RegularFile body]> (fs w)))
      else (Err (wrapError "failed to create file"
                   (PathError "open" destPath
                      (Os.missing (fs w) (Filepath.Clean destPath)))), w0)
  end.
Proof.
  unfold downloadExecutable, bind, Errorf_w, Http.Get.
  destruct (server w (requests w) url) as [e|code body]; [reflexivity|].
  cbn [StatusCode Body]. destruct (negb (code =? Http.StatusOK)%Z); [reflexivity|].
  unfold Os.Create, Os.Write. cbn [fs withRequests].
  destruct (Os.isDir (fs w) (Filepath.Clean destPath)); [reflexivity|].
  destruct (Os.isDir (fs w) (Filepath.Dir (Filepath.Clean destPath))); [|reflexivity].
  cbn [Os.key fs withFs]. rewrite lookup_insert_eq.
  unfold withFs, withRequests. cbn [GOOS GOARCH fs server requests].
  rewrite insert_insert_eq. reflexivity.
Qed.

Lemma updateStarsFile_spec (pkg : Package) (w : World) :
  updateStarsFile pkg w =
  match fst (listInstalledPackages w) with
  | Ok packages => saveInstalledPackages (append packages pkg) w
  | Err err =>
      if negb (Errors.IsNotExist err)
      then (Err (wrapError "failed to list installed packages" err), w)
      else saveInstalledPackages (append nilSlice pkg) w
  end.
Proof.
  unfold updateStarsFile.
  destruct (listInstalledPackages w) as [[s|e] w0] eqn:El;
    rewrite (listInstalledPackages_world _ _ _ El); reflexivity.
Qed.


Lemma installSelected_Err (pkg : Package) (rel : Release) (a : Asset)
    (w w' : World) (e : error) :
  installSelected pkg rel a w = (Err e, w') -> exists msg e0, e = wrapError msg e0.
Proof.
  unfold installSelected, bind.
  destruct (Errorf_w _ (Os.MkdirAll installDir) w) as [[[]|e1] w1] eqn:E1.
  - destruct (Errorf_w _ (downloadExecutable _ _) w1) as [[[]|e2] w2] eqn:E2.
    + intros H. apply Errorf_w_Err in H as [e0 ->]. eauto.
    + intros [= <- _]. apply Errorf_w_Err in E2 as [e0 ->]. eauto.
  - intros [= <- _]. apply Errorf_w_Err in E1 as [e0 ->]. eauto.
Qed.

Lemma selectAsset_find (assets : list Asset) (platform url0 : string) (pkg0 : Package) :
  selectAsset assets platform url0 pkg0 =
  match List.find (matchesPlatform platform) assets with
  | Some a => (URL a, mkPackage (User pkg0) (Repo pkg0) (Version pkg0) (Name a))
  | None => (url0, pkg0)
  end.
Proof.
  induction assets as [|a assets IH]; [reflexivity|].
  cbn [selectAsset List.find]. unfold matchesPlatform at 1.
  destruct (Strings.Contains (Strings.ToLower (Name a)) platform);
    [reflexivity | exact IH].
Qed.

(** For a token in lower case, as the tokens of the Go runtime are, the test
    of the loop compares the name and the token without regard to case. *)
Lemma matchesPlatform_caseless (platform : string) (a : Asset) :
  Strings.ToLower platform = platform ->
  matchesPlatform platform a
  = Strings.Contains (Strings.ToLower (Name a)) (Strings.ToLower platform).
Proof. intros ->. reflexivity. Qed.

(** The test of the loop, [strings.Contains(strings.ToLower(name), token)],
    is containment without regard to case, for a token in lower case. *)
Lemma toLowerRune_sameLetter (c t : ascii) :
  isCapital t = false ->
  Ascii.eqb (Strings.toLowerRune c) t = sameLetter c t.
Proof.
  intros Ht. unfold sameLetter. rewrite Ht, andb_false_l, orb_false_r.
  destruct (isCapital c) eqn:Ec.
  - assert (Hl : Strings.toLowerRune c = smallOf c).
    { unfold Strings.toLowerRune, smallOf. unfold isCapital in Ec. now rewrite Ec. }
    rewrite Hl, andb_true_l.
    destruct (Ascii.eqb_spec c t) as [->|_]; [congruence | reflexivity].
  - assert (Hl : Strings.toLowerRune c = c).
    { unfold Strings.toLowerRune. unfold isCapital in Ec. now rewrite Ec. }
    rewrite Hl, andb_false_l, orb_false_r. reflexivity.
Qed.

Lemma HasPrefix_ToLower (s token : string) :
  noCapital token = true ->
  Strings.HasPrefix (Strings.ToLower s) token = startsWithFold s token.
Proof.
  revert s. induction token as [|t token IH]; intros s Ht; [now destruct s|].
  cbn [noCapital] in Ht. apply andb_true_iff in Ht as [Ht Htoken].
  apply negb_true_iff in Ht.
  destruct s as [|c s]; [reflexivity|].
  cbn [Strings.ToLower Strings.HasPrefix startsWithFold].
  now rewrite (toLowerRune_sameLetter c t Ht), (IH s Htoken).
Qed.

Lemma Contains_ToLower (s token : string) :
  noCapital token = true ->
  Strings.Contains (Strings.ToLower s) token = containsFold s token.
Proof.
  intros Ht. induction s as [|c s IH].
  - cbn [Strings.ToLower Strings.Contains containsFold].
    now rewrite <- (HasPrefix_ToLower "" token Ht).
  - change (Strings.ToLower (String c s))
      with (String (Strings.toLowerRune c) (Strings.ToLower s)).
    cbn [Strings.Contains containsFold]. rewrite IH.
    change (String (Strings.toLowerRune c) (Strings.ToLower s))
      with (Strings.ToLower (String c s)).
    now rewrite (HasPrefix_ToLower (String c s) token Ht).
Qed.

Lemma matchesPlatform_containsFold (platform : string) (a : Asset) :
  noCapital platform = true ->
  matchesPlatform platform a = containsFold (Name a) platform.
Proof. intros H. unfold matchesPlatform. now apply Contains_ToLower. Qed.

Lemma noJsonValue_Decode (text : string) :
  noJsonValue text = true -> Json.Decode text = None.
Proof.
  unfold noJsonValue, Json.Decode.
  destruct (Json.skipSpace text) as [|c rest]; [discriminate|].
  intros H. apply negb_true_iff in H. unfold beginsValue in H.
  cbn [existsb list_ascii_of_string] in H.
  repeat (apply orb_false_iff in H as [? H]).
  cbn [Strings.HasPrefix].
  replace (Ascii.eqb c "n") with false by (symmetry; assumption).
  replace (Ascii.eqb c "[") with false by (symmetry; assumption).
  reflexivity.
Qed.


(** [List.find] returns the match of lowest index. *)
Lemma find_first {A} (f : A -> bool) (l : list A) (i : nat) (a : A) :
  l !! i = Some a -> f a = true ->
  (forall j b, j < i -> l !! j = Some b -> f b = false) ->
  List.find f l = Some a.
Proof.
  revert i. induction l as [|x l IH]; intros i Hi Ha Hlt; [destruct i; discriminate|].
  destruct i as [|i]; cbn in Hi.
  - injection Hi as ->. cbn. now rewrite Ha.
  - cbn. rewrite (Hlt 0 x) by (cbn; first [lia | reflexivity]).
    apply (IH i Hi Ha). intros j b Hj Hb. apply (Hlt (S j) b); [lia | exact Hb].
Qed.

Lemma find_none_iff {A} (f : A -> bool) (l : list A) :
  List.find f l = None <-> forall a, In a l -> f a = false.
Proof.
  split; [apply List.find_none|].
  induction l as [|x l IH]; intros H; [reflexivity|].
  cbn. rewrite (H x) by (left; reflexivity). apply IH. intros a Ha. apply H. now right.
Qed.

(** The calls of [http.Get] a step makes. *)
Lemma saveInstalledPackages_requests (s : slice) (w : World) :
  requests (snd (saveInstalledPackages s w)) = requests w.
Proof.
  rewrite saveInstalledPackages_spec.
  destruct (Os.isDir (fs w) manifestKey); [reflexivity|].
  destruct (Os.isDir (fs w) "stars"); reflexivity.
Qed.

Lemma updateStarsFile_requests (pkg : Package) (w : World) :
  requests (snd (updateStarsFile pkg w)) = requests w.
Proof.
  rewrite updateStarsFile_spec.
  destruct (fst (listInstalledPackages w)) as [s|e];
    [apply saveInstalledPackages_requests|].
  destruct (negb (Errors.IsNotExist e)); [reflexivity|].
  apply saveInstalledPackages_requests.
Qed.

Lemma downloadExecutable_requests (url destPath : string) (w : World) :
  requests (snd (downloadExecutable url destPath w)) = requests w ++ [url].
Proof.
  rewrite downloadExecutable_spec. cbv zeta.
  destruct (server w (requests w) url) as [e|code body]; [reflexivity|].
  destruct (negb (code =? Http.StatusOK)%Z); [reflexivity|].
  destruct (Os.isDir (fs w) (Filepath.Clean destPath)); [reflexivity|].
  destruct (Os.isDir (fs w) (Filepath.Dir (Filepath.Clean destPath))); reflexivity.
Qed.

Lemma Errorf_w_world {A} (msg : string) (m : M A) (w : World) :
  snd (Errorf_w msg m w) = snd (m w).
Proof. unfold Errorf_w. destruct (m w) as [[a|e] w']; reflexivity. Qed.

Lemma MkdirAll_installDir_requests (w : World) :
  requests (snd (Os.MkdirAll installDir w)) = requests w.
Proof.
  rewrite MkdirAll_installDir_spec.
  destruct (Os.isDir (fs w) "stars"); [reflexivity|].
  destruct (fs w !! "stars") as [[c|]|]; reflexivity.
Qed.

Lemma MkdirAll_installDir_Err (w w1 : World) (e : error) :
  Os.MkdirAll installDir w = (Err e, w1) -> w1 = w.
Proof.
  rewrite MkdirAll_installDir_spec.
  destruct (Os.isDir (fs w) "stars"); [discriminate|].
  destruct (fs w !! "stars") as [[c|]|]; [|discriminate|discriminate].
  now intros [= _ <-].
Qed.

Lemma installSelected_requests (pkg : Package) (rel : Release) (a : Asset)
    (w : World) :
  (exists e, installSelected pkg rel a w = (Err e, w)) \/
  requests (snd (installSelected pkg rel a w)) = requests w ++ [URL a].
Proof.
  unfold installSelected, bind. cbv zeta.
  pose proof (MkdirAll_installDir_requests w) as H1.
  rewrite <- (Errorf_w_world "failed to create install directory") in H1.
  destruct (Errorf_w "failed to create install directory" _ w)
    as [[[]|e] w1] eqn:E1; cbn [snd] in H1; [right | left].
  2:{ unfold Errorf_w in E1.
      destruct (Os.MkdirAll installDir w) as [[[]|e0] w0] eqn:E0; [discriminate|].
      apply MkdirAll_installDir_Err in E0. injection E1 as <- <-. subst w0. eauto. }
  cbv beta iota.
  match goal with
  | |- context [Errorf_w "failed to download executable" (downloadExecutable ?u ?d) w1] =>
      pose proof (downloadExecutable_requests u d w1) as H2;
      rewrite <- (Errorf_w_world "failed to download executable") in H2;
      destruct (Errorf_w "failed to download executable" (downloadExecutable u d) w1)
        as [[[]|e] w2]
  end; cbn [snd] in H2 |- *.
  - rewrite Errorf_w_world, updateStarsFile_requests, H2, H1. reflexivity.
  - rewrite H2, H1. reflexivity.
Qed.

Section InstallSteps.

Variable decodeRelease : string -> option Release.

(** [Install], step by step. *)
Lemma Install_spec (pkg : Package) (w : World) :
  Install decodeRelease pkg w =
  if String.eqb (platformOf w) "unknown-unknown"
  then (Err (errorString "unsupported platform"), w)
  else
    let w0 := withRequests w (requests w ++ [releaseURL pkg]) in
    match server w (requests w) (releaseURL pkg) with
    | TransportError e => (Err (wrapError "failed to fetch release" e), w0)
    | Respond code body =>
        if negb (code =? Http.StatusOK)%Z
        then (Err (errorString ("failed to fetch release: status code " ++ pretty code)), w0)
        else
          match decodeRelease body with
          | None => (Err (wrapError "failed to decode release data" SyntaxError), w0)
          | Some rel =>
              match List.find (matchesPlatform (platformOf w)) (Assets rel) with
              | None => (Err (noCompatible (platformOf w)), w0)
              | Some a =>
                  if String.eqb (URL a) ""
                  then (Err (noCompatible (platformOf w)), w0)
                  else installSelected pkg rel a w0
              end
          end
    end.
Proof.
  unfold Install, bind. unfold getPlatform at 1. fold (platformOf w).
  destruct (String.eqb (platformOf w) "unknown-unknown"); [reflexivity|].
  fold (releaseURL pkg). unfold Errorf_w at 1. unfold Http.Get.
  destruct (server w (requests w) (releaseURL pkg)) as [e|code body]; [reflexivity|].
  cbn [StatusCode Body]. destruct (negb (code =? Http.StatusOK)%Z); [reflexivity|].
  unfold Errorf_w at 1.
  destruct (decodeRelease body) as [rel|]; [|reflexivity].
  unfold ret. rewrite selectAsset_find.
  destruct (List.find (matchesPlatform (platformOf w)) (Assets rel)) as [a|];
    [|reflexivity].
  cbn [User Repo File]. destruct (String.eqb (URL a) ""); reflexivity.
Qed.


End InstallSteps.

(** * The claims *)

Section Claims.

Variable decodeRelease : string -> option Release.

(** C1. On a machine where the manifest [./stars/.stars] does not exist,
    [ListInstalledStars] returns the nil slice together with the error of
    [os.Open], not an empty list without error. *)
Theorem ListInstalledStars_without_manifest (w : World) :
  fs w !! manifestKey = None ->
  ListInstalledStars w
  = (Err (PathError "open" starFile (Os.missing (fs w) manifestKey)), w).
Proof.
  intros H. unfold ListInstalledStars. rewrite listInstalledPackages_spec, H.
  reflexivity.
Qed.

(** C2. The platform token is the operating system and the architecture
    joined by a hyphen; it is in lower case when the two names are, as the
    names of the Go runtime are. [Install] fails with the unsupported
    platform error exactly when the token is ["unknown-unknown"], and then
    it leaves the world as it was: no request is made. *)
Theorem platform_token (pkg : Package) (w : World) :
  getPlatform w = (Ok (GOOS w ++ "-" ++ GOARCH w)%string, w) /\
  (Strings.ToLower (GOOS w) = GOOS w -> Strings.ToLower (GOARCH w) = GOARCH w ->
   Strings.ToLower (GOOS w ++ "-" ++ GOARCH w) = (GOOS w ++ "-" ++ GOARCH w)%string) /\
  ((GOOS w ++ "-" ++ GOARCH w)%string = "unknown-unknown" ->
   Install decodeRelease pkg w = (Err (Errors.New "unsupported platform"), w)) /\
  (forall w', Install decodeRelease pkg w = (Err (Errors.New "unsupported platform"), w') ->
              (GOOS w ++ "-" ++ GOARCH w)%string = "unknown-unknown").
Proof.
  split; [reflexivity|]. split; [|split].
  - intros Hos Harch. rewrite !ToLower_append, Hos, Harch. reflexivity.
  - intros H. rewrite Install_spec. unfold platformOf. now rewrite H.
  - intros w'. rewrite Install_spec. fold (platformOf w).
    destruct (String.eqb_spec (platformOf w) "unknown-unknown") as [H|_];
      [intros _; exact H|].
    cbv zeta.
    destruct (server w (requests w) (releaseURL pkg)) as [e|code body]; [discriminate|].
    destruct (negb (code =? Http.StatusOK)%Z); [discriminate|].
    destruct (decodeRelease body) as [rel|]; [|discriminate].
    destruct (List.find _ (Assets rel)) as [a|]; [|discriminate].
    destruct (String.eqb (URL a) ""); [discriminate|].
    intros H. apply installSelected_Err in H as (msg & e0 & H). discriminate.
Qed.

(** C3. Of the assets of the release, [Install] takes the one of lowest
    index whose name contains the platform token, case aside (the token is
    in lower case, as the tokens of the Go runtime are): it goes on with
    that asset and looks at no later one, to download it, or, when that
    asset has no download URL, to fail as if none had matched. When no name
    contains the token, [Install] fails with the error that names the
    token, having asked for the release and nothing else: no download, no
    change to the files. *)
Theorem Install_selects_first_match (pkg : Package) (w : World) (body : string)
    (rel : Release) :
  String.eqb (GOOS w ++ "-" ++ GOARCH w) "unknown-unknown" = false ->
  server w (requests w) (releaseURL pkg) = Respond Http.StatusOK body ->
  decodeRelease body = Some rel ->
  let platform := (GOOS w ++ "-" ++ GOARCH w)%string in
  let w0 := withRequests w (requests w ++ [releaseURL pkg]) in
  noCapital platform = true ->
  (forall i asset,
      Assets rel !! i = Some asset ->
      containsFold (Name asset) platform = true ->
      (forall j other, j < i -> Assets rel !! j = Some other ->
                       containsFold (Name other) platform = false) ->
      Install decodeRelease pkg w
      = if String.eqb (URL asset) "" then (Err (noCompatible platform), w0)
        else installSelected pkg rel asset w0) /\
  ((forall asset, In asset (Assets rel) -> containsFold (Name asset) platform = false) ->
   Install decodeRelease pkg w = (Err (noCompatible platform), w0) /\
   fs w0 = fs w /\ requests w0 = requests w ++ [releaseURL pkg]).
Proof.
  intros Hp Hs Hd platform w0 Hlow. subst platform w0. split.
  - intros i asset Hi Hm Hfirst.
    rewrite Install_spec. unfold platformOf. rewrite Hp, Hs, Hd. cbv zeta.
    change (negb (Http.StatusOK =? Http.StatusOK)%Z) with false. cbv iota.
    rewrite (find_first _ _ i asset Hi); [reflexivity | |].
    + now rewrite (matchesPlatform_containsFold _ _ Hlow).
    + intros j other Hj Hother.
      rewrite (matchesPlatform_containsFold _ _ Hlow). now apply (Hfirst j).
  - intros Hnone. split; [|split; reflexivity].
    rewrite Install_spec. unfold platformOf. rewrite Hp, Hs, Hd. cbv zeta.
    change (negb (Http.StatusOK =? Http.StatusOK)%Z) with false. cbv iota.
    assert (Hfind : List.find (matchesPlatform (GOOS w ++ "-" ++ GOARCH w)) (Assets rel)
                    = None).
    { apply find_none_iff. intros a Ha.
      rewrite (matchesPlatform_containsFold _ _ Hlow). now apply Hnone. }
    now rewrite Hfind.
Qed.


(** C5. When the manifest lists the identity of [pkg] and the removal of
    the file of its first record fails, [Uninstall] returns the removal
    error, wrapped, and leaves the world, the manifest with it, as it was. *)
Theorem Uninstall_removal_failure (pkg p : Package) (w : World) (s : slice)
    (cause : error) :
  fst (listInstalledPackages w) = Ok s ->
  List.find (sameIdentity pkg) (items s) = Some p ->
  fst (Os.Remove (Filepath.Join [installDir; File p]) w) = Err cause ->
  Uninstall pkg w = (Err (wrapError "failed to remove executable" cause), w).
Proof.
  intros Hl Hf Hr. rewrite Uninstall_spec.
  destruct (listInstalledPackages w) as [r w0]. cbn in Hl. subst r.
  rewrite Hf.
  destruct (Os.Remove (Filepath.Join [installDir; File p]) w) as [r w1].
  cbn in Hr. subst r. reflexivity.
Qed.

(** C6. A successful [Uninstall] found the manifest readable and a first
    record [p] with the identity of [pkg]; it deleted the one node at the
    path of the file of [p], and wrote the manifest anew with every record
    of that identity left out and the others in their order. *)
Theorem Uninstall_removes_all_records (pkg : Package) (w w' : World) :
  Uninstall pkg w = (Ok tt, w') ->
  exists s p updated,
    fst (listInstalledPackages w) = Ok s /\
    List.find (sameIdentity pkg) (items s) = Some p /\
    items updated = List.filter (fun q => negb (sameIdentity pkg q)) (items s) /\
    is_Some (fs w !! Filepath.Clean (Filepath.Join [installDir; File p])) /\
    w' = withFs w (<[manifestKey := RegularFile (Json.Encode updated)]>
                     (delete (Filepath.Clean (Filepath.Join [installDir; File p]))
                        (fs w))) /\
    listInstalledPackages w' = (Ok updated, w').
Proof.
  intros Hu.
  destruct (Uninstall_Ok_inv _ _ _ Hu) as (s & p & Hl & Hf & Hsome & _ & _ & Hw').
  exists s, p, (keepOthers (items s) pkg nilSlice).
  split; [now rewrite Hl|]. split; [exact Hf|].
  split; [apply keepOthers_items|]. split; [exact Hsome|]. split; [exact Hw'|].
  subst w'. rewrite listInstalledPackages_spec. cbn [fs withFs].
  rewrite lookup_insert_eq, Decode_Encode. reflexivity.
Qed.

(** C7. Where the manifest does not exist, which is the empty state of
    the specification, no identity is listed, and yet [Uninstall] does not
    fail with the not-found error: it returns the error of the listing,
    wrapped, whatever the identity is. The world is left as it was. *)
Theorem Uninstall_without_manifest (pkg : Package) (w : World) :
  fs w !! manifestKey = None ->
  Uninstall pkg w
  = (Err (wrapError "failed to list installed packages"
            (PathError "open" starFile (Os.missing (fs w) manifestKey))), w) /\
  Uninstall pkg w <> (Err (notFound pkg), w).
Proof.
  intros H.
  assert (Hu : Uninstall pkg w
               = (Err (wrapError "failed to list installed packages"
                         (PathError "open" starFile (Os.missing (fs w) manifestKey))), w)).
  { rewrite Uninstall_spec, listInstalledPackages_spec, H. reflexivity. }
  split; [exact Hu|]. rewrite Hu. discriminate.
Qed.

(** X22. When the manifest exists and decodes and none of its records has
    the identity of [pkg], [Uninstall] fails with the not-found error and
    leaves the world, the manifest with it, as it was. *)
Theorem Uninstall_unknown_identity (pkg : Package) (w : World) (s : slice) :
  fst (listInstalledPackages w) = Ok s ->
  List.existsb (sameIdentity pkg) (items s) = false ->
  Uninstall pkg w = (Err (notFound pkg), w).
Proof.
  intros Hl Hn. rewrite Uninstall_spec.
  destruct (listInstalledPackages w) as [r w0]. cbn in Hl. subst r.
  now rewrite (find_existsb _ _ Hn).
Qed.


(** C9. For records that hold text: a save that succeeds leaves the
    encoded packages in the manifest, and loading then returns the very
    slice that was saved, without error: the same records in the same
    order, and the nil slice, which is written as [null], as the nil slice.
    The text in the manifest is, in UTF-8, what the encoder writes for the
    Go strings that hold the records. *)
Theorem save_then_load (s : slice) (w w' : World) :
  saveInstalledPackages s w = (Ok tt, w') ->
  fs w' !! manifestKey = Some (RegularFile (Json.Encode s)) /\
  Utf8.encode (Json.Encode s) = Bytes.Encode (Bytes.ofSlice s) /\
  Json.Decode (Json.Encode s) = Some s /\
  listInstalledPackages w' = (Ok s, w').
Proof.
  intros Hs.
  split; [|split; [symmetry; apply Encode_encode
                  |split; [apply Decode_Encode | exact (list_after_save _ _ _ Hs)]]].
  rewrite saveInstalledPackages_spec in Hs.
  destruct (Os.isDir _ manifestKey); [discriminate|].
  destruct (Os.isDir _ "stars"); [|discriminate].
  injection Hs as <-. cbn [fs withFs]. apply lookup_insert_eq.
Qed.

(** C10. [Uninstall] looks at the user and the repository of its argument
    only: two packages that agree on them get the same result and leave the
    same world. *)
Theorem Uninstall_depends_on_identity (p1 p2 : Package) (w : World) :
  User p1 = User p2 -> Repo p1 = Repo p2 ->
  Uninstall p1 w = Uninstall p2 w.
Proof.
  destruct p1 as [u r v1 f1], p2 as [u2 r2 v2 f2]. cbn. intros <- <-.
  rewrite !Uninstall_spec.
  destruct (listInstalledPackages w) as [[s|e] w0]; [|reflexivity].
  change (sameIdentity (mkPackage u r v2 f2)) with (sameIdentity (mkPackage u r v1 f1)).
  destruct (List.find _ (items s)) as [p|]; [|reflexivity].
  destruct (Os.Remove _ w) as [[[]|e] w1]; [|reflexivity].
  rewrite !keepOthers_filter. reflexivity.
Qed.

End Claims.

(** * The model at work *)

Example clean_examples :
  Filepath.Clean "./stars" = "stars" /\
  Filepath.Clean "./stars/.stars" = "stars/.stars" /\
  Filepath.Clean "a//b/./c/.." = "a/b" /\
  Filepath.Clean "../../x" = "../../x" /\
  Filepath.Clean "/../a/" = "/a" /\
  Filepath.Clean "a/.." = "." /\
  Filepath.Join ["./stars"; "tool-linux-amd64"] = "stars/tool-linux-amd64" /\
  Filepath.Join ["./stars"; ""] = "stars" /\
  Filepath.Join ["./stars"; "linux-amd64/../.stars"] = "stars/.stars" /\
  Filepath.Dir "stars/.stars" = "stars" /\
  Filepath.Dir "stars" = "." /\
  Filepath.Dir "/stars" = "/".
Proof. repeat split; reflexivity. Qed.

Example contains_examples :
  Strings.Contains (Strings.ToLower "Tool-Linux-AMD64.tar.gz") "linux-amd64" = true /\
  Strings.Contains "tool-darwin-amd64" "linux-amd64" = false /\
  Strings.Contains "" "" = true.
Proof. repeat split; reflexivity. Qed.

Example encode_examples :
  Json.Encode nilSlice = String.append "null" (String Json.newline "") /\
  Json.Marshal (Slice []) = "[]" /\
  Json.Marshal (Slice [pkgB]) =
    String.concat (String quote "")
      ["[{"; "user"; ":"; "b"; ","; "repo"; ":"; "r"; ","; "version"; ":"; "";
       ","; "file"; ":"; "x"; "}]"] /\
  Json.escape "a<b" = String.append "a" (String backslash "u003cb").
Proof. repeat split; reflexivity. Qed.

Example decode_examples :
  Json.Decode (Json.Encode (Slice [pkgA; pkgB])) = Some (Slice [pkgA; pkgB]) /\
  Json.Decode (Json.Encode nilSlice) = Some nilSlice /\
  Json.Decode (Json.Encode (Slice [])) = Some (Slice []) /\
  Json.Decode " [ null , { } ] trailing" = Some (Slice [zeroPackage; zeroPackage]) /\
  Json.Decode "" = None /\
  Json.Decode "{}" = None /\
  Json.Decode
    (String.concat (String quote "")
       ["[ {"; "File"; " : "; "f"; ", "; "user"; ":null, "; "other"; ":"; "o"; "} ]"])
    = Some (Slice [mkPackage "" "" "" "f"]).
Proof. repeat split; vm_compute; reflexivity. Qed.

(** On a machine with nothing on it, a release whose asset is named
    [linux-amd64/../.stars] is installed over the manifest: the body of the
    asset is then read as the manifest, and the record of the install is
    added to the one the body brought. *)
Example install_over_manifest :
  fst (Install sampleDecode idAlias freshWorld) = Ok tt /\
  fst (ListInstalledStars (snd (Install sampleDecode idAlias freshWorld)))
  = Ok (Slice [mkPackage "u" "alias" "v0" "old";
               mkPackage "u" "alias" "v2" "linux-amd64/../.stars"]).
Proof. split; vm_compute; reflexivity. Qed.

(** On the same machine [Uninstall] does not get as far as looking for the
    identity. *)
Example uninstall_without_manifest :
  Uninstall idUR freshWorld
  = (Err (wrapError "failed to list installed packages"
            (PathError "open" starFile ENOENT)), freshWorld).
Proof. vm_compute. reflexivity. Qed.

(** * Counterexamples and witnesses *)


(** [uninstallUnknown] fails where the manifest does not exist: the error
    is the one of the listing. *)
Lemma uninstallUnknown_fails : ~ uninstallUnknown freshWorld idUR.
Proof.
  intros H. specialize (H [] eq_refl eq_refl). vm_compute in H. discriminate.
Qed.

(** The encoder writes the same text for two records that differ: each
    holds one byte that begins no rune, and both bytes are written as the
    escape of U+FFFD. *)
Lemma Encode_not_injective :
  Bytes.Encode (Slice [byteFF]) = Bytes.Encode (Slice [byteFE]) /\
  Slice [byteFF] <> Slice [byteFE].
Proof. split; [vm_compute; reflexivity | discriminate]. Qed.

(** So no reading of the manifest gives back every sequence of records
    that was saved. *)
Lemma saveLoadRoundTrip_fails : ~ exists load, saveLoadRoundTrip load.
Proof.
  intros [load H].
  pose proof (H (Slice [byteFF])) as H1. pose proof (H (Slice [byteFE])) as H2.
  rewrite (proj1 Encode_not_injective), H2 in H1. discriminate H1.
Qed.


Lemma ListInstalledStars_without_manifest_witness :
  fs freshWorld !! manifestKey = None /\
  ListInstalledStars freshWorld = (Err (PathError "open" starFile ENOENT), freshWorld).
Proof.
  assert (H : fs freshWorld !! manifestKey = None) by reflexivity.
  split; [exact H | exact (ListInstalledStars_without_manifest freshWorld H)].
Defined.

Lemma platform_token_witness :
  Strings.ToLower (GOOS unknownWorld) = GOOS unknownWorld /\
  Strings.ToLower (GOARCH unknownWorld) = GOARCH unknownWorld /\
  (GOOS unknownWorld ++ "-" ++ GOARCH unknownWorld)%string = "unknown-unknown" /\
  Strings.ToLower (GOOS unknownWorld ++ "-" ++ GOARCH unknownWorld)
  = (GOOS unknownWorld ++ "-" ++ GOARCH unknownWorld)%string /\
  Install sampleDecode idUR unknownWorld
  = (Err (Errors.New "unsupported platform"), unknownWorld).
Proof.
  destruct (platform_token sampleDecode idUR unknownWorld) as (_ & Hlow & Hfail & _).
  split; [reflexivity|]. split; [reflexivity|]. split; [reflexivity|].
  split; [exact (Hlow eq_refl eq_refl) | exact (Hfail eq_refl)].
Defined.

Lemma Install_selects_first_match_witness :
  Install mixedCaseDecode idUR mixedCaseWorld
  = installSelected idUR mixedCaseRelease
      (mkAsset "Tool-Linux-AMD64.tgz" "https://dl.example/linux")
      (withRequests mixedCaseWorld [releaseURL idUR]) /\
  Install mixedCaseDecode idUR mixedCaseMac
  = (Err (noCompatible "darwin-amd64"), withRequests mixedCaseMac [releaseURL idUR]) /\
  Install mixedCaseDecode idUR mixedCase386
  = (Err (noCompatible "linux-386"), withRequests mixedCase386 [releaseURL idUR]).
Proof.
  split; [|split].
  - apply (proj1 (Install_selects_first_match mixedCaseDecode idUR mixedCaseWorld
                    "release-mixed" mixedCaseRelease eq_refl eq_refl eq_refl eq_refl) 1
             (mkAsset "Tool-Linux-AMD64.tgz" "https://dl.example/linux"));
      [reflexivity | reflexivity |].
    intros j other Hj Hl. destruct j as [|j]; [|lia].
    injection Hl as <-. reflexivity.
  - apply (proj1 (Install_selects_first_match mixedCaseDecode idUR mixedCaseMac
                    "release-mixed" mixedCaseRelease eq_refl eq_refl eq_refl eq_refl) 0
             (mkAsset "TOOL-DARWIN-AMD64.TGZ" ""));
      [reflexivity | reflexivity |].
    intros j other Hj. lia.
  - apply (proj2 (Install_selects_first_match mixedCaseDecode idUR mixedCase386
                    "release-mixed" mixedCaseRelease eq_refl eq_refl eq_refl eq_refl)).
    intros asset [<-|[<-|[<-|[]]]]; reflexivity.
Defined.


Lemma Uninstall_removal_failure_witness :
  fst (listInstalledPackages danglingWorld) = Ok (Slice [recUR]) /\
  List.find (sameIdentity idUR) [recUR] = Some recUR /\
  fst (Os.Remove (Filepath.Join [installDir; File recUR]) danglingWorld)
  = Err (PathError "remove" "stars/tool-linux-amd64.tar.gz" ENOENT) /\
  Uninstall idUR danglingWorld
  = (Err (wrapError "failed to remove executable"
            (PathError "remove" "stars/tool-linux-amd64.tar.gz" ENOENT)),
     danglingWorld).
Proof.
  assert (Hl : fst (listInstalledPackages danglingWorld) = Ok (Slice [recUR]))
    by (vm_compute; reflexivity).
  assert (Hf : List.find (sameIdentity idUR) [recUR] = Some recUR) by reflexivity.
  assert (Hr : fst (Os.Remove (Filepath.Join [installDir; File recUR]) danglingWorld)
               = Err (PathError "remove" "stars/tool-linux-amd64.tar.gz" ENOENT))
    by (vm_compute; reflexivity).
  split; [exact Hl|]. split; [exact Hf|]. split; [exact Hr|].
  exact (Uninstall_removal_failure idUR recUR danglingWorld _ _ Hl Hf Hr).
Defined.

Lemma Uninstall_removes_all_records_witness :
  Uninstall idUR crowdedWorld = (Ok tt, snd (Uninstall idUR crowdedWorld)) /\
  exists updated,
    listInstalledPackages (snd (Uninstall idUR crowdedWorld))
    = (Ok updated, snd (Uninstall idUR crowdedWorld)) /\
    items updated = [recOther].
Proof.
  assert (Hu : Uninstall idUR crowdedWorld = (Ok tt, snd (Uninstall idUR crowdedWorld)))
    by (vm_compute; reflexivity).
  split; [exact Hu|].
  destruct (Uninstall_removes_all_records idUR crowdedWorld _ Hu)
    as (s & p & updated & Hl & _ & Hupd & _ & _ & Hlist).
  exists updated. split; [exact Hlist|].
  rewrite Hupd. vm_compute in Hl. injection Hl as <-. reflexivity.
Defined.

Lemma Uninstall_without_manifest_witness :
  fs freshWorld !! manifestKey = None /\
  manifestState freshWorld = Some [] /\
  Uninstall idUR freshWorld
  = (Err (wrapError "failed to list installed packages"
            (PathError "open" starFile ENOENT)), freshWorld) /\
  Uninstall idUR freshWorld <> (Err (notFound idUR), freshWorld).
Proof.
  assert (H : fs freshWorld !! manifestKey = None) by reflexivity.
  split; [exact H|]. split; [reflexivity|].
  exact (Uninstall_without_manifest idUR freshWorld H).
Defined.

Lemma Uninstall_unknown_identity_witness :
  fst (listInstalledPackages crowdedWorld) = Ok (Slice [recOther; recUR; recUR2]) /\
  List.existsb (sameIdentity idAlias) [recOther; recUR; recUR2] = false /\
  Uninstall idAlias crowdedWorld = (Err (notFound idAlias), crowdedWorld).
Proof.
  assert (Hl : fst (listInstalledPackages crowdedWorld)
               = Ok (Slice [recOther; recUR; recUR2])) by (vm_compute; reflexivity).
  assert (He : List.existsb (sameIdentity idAlias) [recOther; recUR; recUR2] = false)
    by reflexivity.
  split; [exact Hl|]. split; [exact He|].
  exact (Uninstall_unknown_identity idAlias crowdedWorld _ Hl He).
Defined.


Lemma save_then_load_witness :
  saveInstalledPackages (Slice [pkgA; pkgE]) danglingWorld
  = (Ok tt, snd (saveInstalledPackages (Slice [pkgA; pkgE]) danglingWorld)) /\
  listInstalledPackages (snd (saveInstalledPackages (Slice [pkgA; pkgE]) danglingWorld))
  = (Ok (Slice [pkgA; pkgE]),
     snd (saveInstalledPackages (Slice [pkgA; pkgE]) danglingWorld)) /\
  saveInstalledPackages nilSlice danglingWorld
  = (Ok tt, snd (saveInstalledPackages nilSlice danglingWorld)) /\
  listInstalledPackages (snd (saveInstalledPackages nilSlice danglingWorld))
  = (Ok nilSlice, snd (saveInstalledPackages nilSlice danglingWorld)).
Proof.
  assert (H1 : saveInstalledPackages (Slice [pkgA; pkgE]) danglingWorld
               = (Ok tt, snd (saveInstalledPackages (Slice [pkgA; pkgE]) danglingWorld)))
    by (vm_compute; reflexivity).
  assert (H2 : saveInstalledPackages nilSlice danglingWorld
               = (Ok tt, snd (saveInstalledPackages nilSlice danglingWorld)))
    by (vm_compute; reflexivity).
  split; [exact H1|].
  split; [exact (proj2 (proj2 (proj2 (save_then_load _ _ _ H1))))|].
  split; [exact H2|].
  exact (proj2 (proj2 (proj2 (save_then_load _ _ _ H2)))).
Defined.

Lemma Uninstall_depends_on_identity_witness :
  User recUR2 = User idUR /\ Repo recUR2 = Repo idUR /\
  Uninstall recUR2 crowdedWorld = Uninstall idUR crowdedWorld.
Proof.
  split; [reflexivity|]. split; [reflexivity|].
  exact (Uninstall_depends_on_identity recUR2 idUR crowdedWorld eq_refl eq_refl).
Defined.

(** * More of the package manager *)

(** ** What a successful [Install] leaves *)



Section InstallOutcome.

Variable decodeRelease : string -> option Release.


End InstallOutcome.





Lemma existsb_filter_others (pkg : Package) (l : list Package) :
  List.existsb (sameIdentity pkg) (List.filter (fun p => negb (sameIdentity pkg p)) l)
  = false.
Proof.
  induction l as [|y l IH]; [reflexivity|]. cbn.
  destruct (sameIdentity pkg y) eqn:E; cbn; [exact IH|]. now rewrite E.
Qed.

Section MoreOfInstall.

Variable decodeRelease : string -> option Release.




End MoreOfInstall.

(** ** More of [Uninstall] and [Update] *)

(** X4. After a successful [Uninstall] the identity is gone for good: a
    second [Uninstall] of it fails with the not-found error and changes
    nothing. *)
Theorem Uninstall_twice (pkg : Package) (w w1 : World) :
  Uninstall pkg w = (Ok tt, w1) ->
  Uninstall pkg w1 = (Err (notFound pkg), w1).
Proof.
  intros Hu. apply Uninstall_Ok_inv in Hu as (s & p & _ & _ & _ & _ & _ & ->).
  rewrite Uninstall_spec, listInstalledPackages_spec. cbn [fs withFs].
  rewrite lookup_insert_eq, Decode_Encode, keepOthers_items.
  now rewrite (find_existsb _ _ (existsb_filter_others pkg (items s))).
Qed.


Section MoreOfUpdate.

Variable decodeRelease : string -> option Release.

(** X6. [Update] does not install what is not installed: for an identity
    that a readable manifest does not list it returns the not-found error of
    [Uninstall], wrapped, and leaves the world as it was; no request is
    made. *)
Theorem Update_unknown_identity (pkg : Package) (w : World) (s : slice) :
  fst (listInstalledPackages w) = Ok s ->
  List.existsb (sameIdentity pkg) (items s) = false ->
  Update decodeRelease pkg w
  = (Err (wrapError "failed to uninstall package" (notFound pkg)), w).
Proof.
  intros Hl Hn. unfold Update, bind, Errorf_w. rewrite Uninstall_spec.
  destruct (listInstalledPackages w) as [r w0]. cbn in Hl. subst r.
  now rewrite (find_existsb _ _ Hn).
Qed.

End MoreOfUpdate.

(** ** More of [Install] *)

Section InstallTrace.

Variable decodeRelease : string -> option Release.

(** X7. [Install] calls [http.Get] at most twice, first with the URL of
    the release of the package and then with the URL of the asset selected
    from it (what the HTTP client sends on its own to follow a redirection
    is not a call of [http.Get] and is not counted). A run that did not
    call it for the asset has failed and has changed no file: only the call
    for the release is recorded, or, on a platform that is not supported,
    none at all. *)
Theorem Install_requests (pkg : Package) (w w' : World) (r : result unit) :
  Install decodeRelease pkg w = (r, w') ->
  (w' = w /\ exists e, r = Err e) \/
  (w' = withRequests w (requests w ++ [releaseURL pkg]) /\ exists e, r = Err e) \/
  exists body rel asset,
    server w (requests w) (releaseURL pkg) = Respond Http.StatusOK body /\
    decodeRelease body = Some rel /\
    List.find (matchesPlatform (platformOf w)) (Assets rel) = Some asset /\
    requests w' = requests w ++ [releaseURL pkg; URL asset].
Proof.
  rewrite Install_spec.
  destruct (String.eqb (platformOf w) "unknown-unknown");
    [intros [= <- <-]; left; eauto|].
  cbv zeta.
  destruct (server w (requests w) (releaseURL pkg)) as [e|code body] eqn:Es;
    [intros [= <- <-]; right; left; eauto|].
  destruct (code =? Http.StatusOK)%Z eqn:Ec; cbn [negb];
    [|intros [= <- <-]; right; left; eauto].
  apply Z.eqb_eq in Ec. subst code.
  destruct (decodeRelease body) as [rel|] eqn:Ed;
    [|intros [= <- <-]; right; left; eauto].
  destruct (List.find _ (Assets rel)) as [a|] eqn:Ef;
    [|intros [= <- <-]; right; left; eauto].
  destruct (String.eqb (URL a) ""); [intros [= <- <-]; right; left; eauto|].
  intros Hi. right.
  destruct (installSelected_requests pkg rel a
              (withRequests w (requests w ++ [releaseURL pkg]))) as [[e H]|H].
  - left. rewrite H in Hi. injection Hi as <- <-. eauto.
  - right. exists body, rel, a.
    split; [reflexivity|]. split; [exact Ed|]. split; [exact Ef|].
    rewrite Hi in H. cbn [snd requests withRequests] in H.
    rewrite H, <- app_assoc. reflexivity.
Qed.

(** X8. When the install directory does not exist yet and the call of
    [http.Get] for the selected asset returns a response with another
    status than 200 (the response at the end of the redirections the client
    followed), [Install] fails with that status in its error and stores no
    file: all it leaves is the install directory, made before the download
    was tried. *)
Theorem Install_download_refused (pkg : Package) (w : World) (body : string)
    (rel : Release) (asset : Asset) (code : Z) (body1 : string) :
  String.eqb (platformOf w) "unknown-unknown" = false ->
  server w (requests w) (releaseURL pkg) = Respond Http.StatusOK body ->
  decodeRelease body = Some rel ->
  List.find (matchesPlatform (platformOf w)) (Assets rel) = Some asset ->
  URL asset <> "" ->
  fs w !! "stars" = None ->
  server w (requests w ++ [releaseURL pkg]) (URL asset) = Respond code body1 ->
  code <> Http.StatusOK ->
  Install decodeRelease pkg w
  = (Err (wrapError "failed to download executable"
            (errorString ("failed to download file: status code " ++ pretty code))),
     mkWorld (GOOS w) (GOARCH w) (<["stars" := Directory]> (fs w)) (server w)
       (requests w ++ [releaseURL pkg; URL asset])).
Proof.
  intros Hp Hs Hd Hf Hurl Hstars Ha Hcode.
  rewrite Install_spec, Hp, Hs, Hd, Hf. cbv zeta.
  change (negb (Http.StatusOK =? Http.StatusOK)%Z) with false. cbv iota.
  apply String.eqb_neq in Hurl. rewrite Hurl.
  unfold installSelected, bind. unfold Errorf_w at 1.
  rewrite MkdirAll_installDir_spec. cbn [fs withRequests].
  rewrite isDir_stars, Hstars. unfold Errorf_w.
  rewrite downloadExecutable_spec. cbv zeta.
  cbn [fs server requests withFs withRequests GOOS GOARCH]. rewrite Ha.
  apply Z.eqb_neq in Hcode. rewrite Hcode. cbn [negb].
  unfold withRequests. cbn [fs server requests withFs GOOS GOARCH].
  rewrite <- app_assoc. reflexivity.
Qed.


End InstallTrace.

(** ** A manifest that cannot be read, and a manifest that runs empty *)

Section CorruptManifest.

Variable decodeRelease : string -> option Release.

(** X10. With a manifest that is no JSON text (after white space it begins
    with a character that begins no JSON value), [Uninstall] and [Update]
    fail on reading it and leave the world as it was: no file is removed
    and [http.Get] is not called. *)
Theorem Uninstall_corrupt_manifest (pkg : Package) (w : World) (text : string) :
  fs w !! manifestKey = Some (RegularFile text) ->
  noJsonValue text = true ->
  Uninstall pkg w
  = (Err (wrapError "failed to list installed packages"
            (wrapError "failed to decode .stars file" SyntaxError)), w) /\
  Update decodeRelease pkg w
  = (Err (wrapError "failed to uninstall package"
            (wrapError "failed to list installed packages"
               (wrapError "failed to decode .stars file" SyntaxError))), w).
Proof.
  intros Hm Hno. pose proof (noJsonValue_Decode _ Hno) as Hd.
  assert (Hu : Uninstall pkg w
               = (Err (wrapError "failed to list installed packages"
                         (wrapError "failed to decode .stars file" SyntaxError)), w)).
  { rewrite Uninstall_spec, listInstalledPackages_spec, Hm, Hd. reflexivity. }
  split; [exact Hu|]. unfold Update, bind, Errorf_w. now rewrite Hu.
Qed.

End CorruptManifest.

(** X11. When [Uninstall] removes the last records of the manifest, it does
    not write an empty array: the slice it saves was never appended to, so
    the manifest then holds [null], which a later listing reads as the nil
    slice. *)
Theorem Uninstall_last_writes_null (pkg : Package) (w w' : World) (s : slice) :
  Uninstall pkg w = (Ok tt, w') ->
  fst (listInstalledPackages w) = Ok s ->
  List.forallb (sameIdentity pkg) (items s) = true ->
  fs w' !! manifestKey = Some (RegularFile ("null" ++ String Json.newline "")) /\
  ListInstalledStars w' = (Ok nilSlice, w').
Proof.
  intros Hu Hl Hall.
  apply Uninstall_Ok_inv in Hu as (s0 & p & Hl0 & _ & _ & _ & _ & ->).
  rewrite Hl0 in Hl. cbn [fst] in Hl. injection Hl as ->.
  assert (Hk : keepOthers (items s) pkg nilSlice = nilSlice).
  { rewrite keepOthers_filter.
    replace (List.filter (fun p => negb (sameIdentity pkg p)) (items s)) with (@nil Package);
      [reflexivity|].
    symmetry. induction (items s) as [|q l IH]; [reflexivity|].
    cbn [List.forallb] in Hall. apply andb_true_iff in Hall as [Hq Hall].
    cbn [List.filter]. rewrite Hq. cbn [negb]. now apply IH. }
  rewrite Hk. split.
  - cbn [fs withFs]. now rewrite lookup_insert_eq.
  - unfold ListInstalledStars. rewrite listInstalledPackages_spec. cbn [fs withFs].
    rewrite lookup_insert_eq, Decode_Encode. reflexivity.
Qed.

(** ** The properties at work *)




Lemma Uninstall_twice_witness :
  Uninstall idUR installedOffline = (Ok tt, snd (Uninstall idUR installedOffline)) /\
  Uninstall idUR (snd (Uninstall idUR installedOffline))
  = (Err (notFound idUR), snd (Uninstall idUR installedOffline)).
Proof.
  assert (Hu : Uninstall idUR installedOffline
               = (Ok tt, snd (Uninstall idUR installedOffline)))
    by (vm_compute; reflexivity).
  split; [exact Hu|]. exact (Uninstall_twice idUR installedOffline _ Hu).
Defined.


Lemma Update_unknown_identity_witness :
  Update sampleDecode idAlias crowdedWorld
  = (Err (wrapError "failed to uninstall package" (notFound idAlias)), crowdedWorld).
Proof.
  assert (Hl : fst (listInstalledPackages crowdedWorld)
               = Ok (Slice [recOther; recUR; recUR2])) by (vm_compute; reflexivity).
  exact (Update_unknown_identity sampleDecode idAlias crowdedWorld _ Hl eq_refl).
Defined.

Lemma Install_requests_witness :
  requests (snd (Install sampleDecode idUR freshWorld))
  = [releaseURL idUR; "https://dl.example/linux"].
Proof.
  assert (Hi : Install sampleDecode idUR freshWorld
               = (Ok tt, snd (Install sampleDecode idUR freshWorld)))
    by (vm_compute; reflexivity).
  destruct (Install_requests sampleDecode idUR freshWorld _ _ Hi)
    as [[_ [e H]]|[[_ [e H]]|(body & rel & asset & Hs & Hd & Hf & Hr)]];
    [discriminate H | discriminate H |].
  vm_compute in Hs. injection Hs as <-. vm_compute in Hd. injection Hd as <-.
  vm_compute in Hf. injection Hf as <-. exact Hr.
Defined.

Lemma Install_download_refused_witness :
  Install sampleDecode idUR refusedWorld
  = (Err (wrapError "failed to download executable"
            (errorString "failed to download file: status code 404")),
     mkWorld "linux" "amd64" (<["stars" := Directory]> ∅) refusingServer
       [releaseURL idUR; "https://dl.example/linux"]).
Proof.
  assert (Hu : URL (mkAsset "tool-linux-amd64.tar.gz" "https://dl.example/linux") <> "")
    by discriminate.
  assert (Hc : (404 <> Http.StatusOK)%Z) by discriminate.
  exact (Install_download_refused sampleDecode idUR refusedWorld "release-1" sampleRelease
           (mkAsset "tool-linux-amd64.tar.gz" "https://dl.example/linux") 404 ""
           eq_refl eq_refl eq_refl eq_refl Hu eq_refl eq_refl Hc).
Defined.


Lemma Uninstall_corrupt_manifest_witness :
  Uninstall idUR corruptWorld
  = (Err (wrapError "failed to list installed packages"
            (wrapError "failed to decode .stars file" SyntaxError)), corruptWorld) /\
  Update sampleDecode idUR corruptWorld
  = (Err (wrapError "failed to uninstall package"
            (wrapError "failed to list installed packages"
               (wrapError "failed to decode .stars file" SyntaxError))), corruptWorld).
Proof.
  assert (Hm : fs corruptWorld !! manifestKey
               = Some (RegularFile "manifest of the stars"))
    by (vm_compute; reflexivity).
  assert (Hd : noJsonValue "manifest of the stars" = true) by (vm_compute; reflexivity).
  exact (Uninstall_corrupt_manifest sampleDecode idUR corruptWorld _ Hm Hd).
Defined.

Lemma Uninstall_last_writes_null_witness :
  fs (snd (Uninstall idUR installedOffline)) !! manifestKey
  = Some (RegularFile ("null" ++ String Json.newline "")) /\
  ListInstalledStars (snd (Uninstall idUR installedOffline))
  = (Ok nilSlice, snd (Uninstall idUR installedOffline)).
Proof.
  assert (Hu : Uninstall idUR installedOffline
               = (Ok tt, snd (Uninstall idUR installedOffline)))
    by (vm_compute; reflexivity).
  assert (Hl : fst (listInstalledPackages installedOffline) = Ok (Slice [recUR]))
    by (vm_compute; reflexivity).
  exact (Uninstall_last_writes_null idUR installedOffline _ _ Hu Hl eq_refl).
Defined.

(** * The shell *)

(** ** Splitting strings *)

Lemma append_nil_r (s : string) : (s ++ "")%string = s.
Proof. induction s as [|c s IH]; simpl; [reflexivity | now rewrite IH]. Qed.

Lemma HasPrefix_nil (s : string) : Strings.HasPrefix s "" = true.
Proof. destruct s; reflexivity. Qed.

Lemma splitFrom_no_sep (sep cur s : string) :
  Strings.Contains s sep = false ->
  Strings.splitFrom sep 0 cur s = [(cur ++ s)%string].
Proof.
  revert cur. induction s as [|c s IH]; intros cur H.
  - cbn. now rewrite append_nil_r.
  - cbn [Strings.Contains] in H. apply orb_false_iff in H as [H1 H2].
    cbn [Strings.splitFrom]. rewrite H1. rewrite IH by exact H2.
    now rewrite append_assoc.
Qed.

Lemma splitFrom_char (d : ascii) (cur u t : string) :
  Strings.Contains u (String d "") = false ->
  Strings.splitFrom (String d "") 0 cur (u ++ String d t)
  = (cur ++ u)%string :: Strings.splitFrom (String d "") 0 "" t.
Proof.
  revert cur. induction u as [|a u IH]; intros cur H.
  - cbn. rewrite Ascii.eqb_refl, HasPrefix_nil. cbn. now rewrite append_nil_r.
  - cbn [Strings.Contains] in H. apply orb_false_iff in H as [H1 H2].
    cbn [Strings.HasPrefix] in H1. rewrite HasPrefix_nil, andb_true_r in H1.
    cbn [String.append Strings.splitFrom Strings.HasPrefix]. rewrite H1. cbn [andb].
    rewrite IH by exact H2. now rewrite append_assoc.
Qed.

Lemma splitFrom_length (sep : string) (skip : nat) (cur s : string) :
  1 <= List.length (Strings.splitFrom sep skip cur s).
Proof.
  revert skip cur. induction s as [|c s IH]; intros skip cur; [cbn; lia|].
  cbn [Strings.splitFrom]. destruct skip; [|apply IH].
  destruct (Strings.HasPrefix _ sep); [cbn; lia | apply IH].
Qed.

Lemma splitFrom_two (sep cur s : string) :
  sep <> "" -> Strings.Contains s sep = true ->
  2 <= List.length (Strings.splitFrom sep 0 cur s).
Proof.
  intros Hsep. revert cur. induction s as [|c s IH]; intros cur H.
  - destruct sep; [congruence | discriminate].
  - cbn [Strings.Contains] in H. cbn [Strings.splitFrom].
    destruct (Strings.HasPrefix (String c s) sep).
    + cbn [List.length]. pose proof (splitFrom_length sep (String.length sep - 1) "" s). lia.
    + apply IH. exact H.
Qed.

Lemma Contains_app_r (a b sub : string) :
  Strings.HasPrefix b sub = true -> Strings.Contains (a ++ b) sub = true.
Proof.
  intros H. induction a as [|c a IH].
  - cbn [String.append]. destruct b; cbn [Strings.Contains]; now rewrite H.
  - cbn [String.append Strings.Contains]. rewrite IH. apply orb_true_r.
Qed.

(** ** Words *)

Lemma spaceFree_app (a b : string) :
  spaceFree (a ++ b) = spaceFree a && spaceFree b.
Proof.
  induction a as [|c a IH]; [reflexivity|].
  cbn [String.append spaceFree]. now rewrite IH, andb_assoc.
Qed.

Lemma fieldsFrom_word (cur a s : string) :
  spaceFree a = true ->
  Strings.fieldsFrom cur (a ++ s) = Strings.fieldsFrom (cur ++ a) s.
Proof.
  revert cur. induction a as [|c a IH]; intros cur H.
  - cbn. now rewrite append_nil_r.
  - cbn [spaceFree] in H. apply andb_true_iff in H as [Hc Ha].
    apply negb_true_iff in Hc.
    cbn [String.append Strings.fieldsFrom]. rewrite Hc. rewrite IH by exact Ha.
    now rewrite append_assoc.
Qed.

Lemma eqb_empty (x : string) : x <> "" -> String.eqb x "" = false.
Proof. destruct x; [congruence | reflexivity]. Qed.

Lemma Fields_Join (xs : list string) :
  Forall isWord xs -> Strings.Fields (Strings.Join xs " ") = xs.
Proof.
  induction 1 as [|x xs [Hne Hsf] Hxs IH]; [reflexivity|].
  unfold Strings.Fields in *. destruct xs as [|y ys].
  - cbn [Strings.Join]. rewrite <- (append_nil_r x) at 1.
    rewrite fieldsFrom_word by exact Hsf. cbn [String.append Strings.fieldsFrom].
    now rewrite eqb_empty.
  - change (Strings.Join (x :: y :: ys) " ")
      with (x ++ String " " (Strings.Join (y :: ys) " "))%string.
    rewrite fieldsFrom_word by exact Hsf. cbn [String.append Strings.fieldsFrom].
    change (Strings.isSpace " ") with true. cbv iota.
    rewrite eqb_empty by exact Hne. now rewrite IH.
Qed.

Lemma fieldsFrom_words (cur s : string) :
  spaceFree cur = true -> Forall isWord (Strings.fieldsFrom cur s).
Proof.
  revert cur. induction s as [|c s IH]; intros cur Hcur; cbn [Strings.fieldsFrom].
  - destruct (String.eqb cur "") eqn:E; [constructor|].
    constructor; [|constructor]. split; [|exact Hcur].
    intros ->. discriminate E.
  - destruct (Strings.isSpace c) eqn:Ec.
    + destruct (String.eqb cur "") eqn:E; [now apply IH|].
      constructor; [|now apply IH]. split; [|exact Hcur].
      intros ->. discriminate E.
    + apply IH. rewrite spaceFree_app, Hcur. cbn. now rewrite Ec.
Qed.

Lemma Fields_words (s : string) : Forall isWord (Strings.Fields s).
Proof. now apply fieldsFrom_words. Qed.

Lemma Fields_blank (s : string) : blank s = true -> Strings.Fields s = [].
Proof.
  unfold Strings.Fields. induction s as [|c s IH]; [reflexivity|].
  cbn [blank Strings.fieldsFrom]. intros H. apply andb_true_iff in H as [Hc Hs].
  rewrite Hc. cbn [String.eqb]. now apply IH.
Qed.

(** ** Writing *)

Lemma wrote_nil (sh : Shell) : wrote sh [] = sh.
Proof. unfold wrote. rewrite app_nil_r. now destruct sh. Qed.

Lemma wrote_wrote (sh : Shell) (a b : list string) :
  wrote (wrote sh a) b = wrote sh (a ++ b).
Proof. unfold wrote. cbn. now rewrite app_assoc. Qed.

Lemma Println_wrote (s : string) (sh : Shell) :
  Println s sh = (Returned tt, wrote sh [(s ++ lineFeed)%string]).
Proof. reflexivity. Qed.

Lemma forEach_Print {A} (f : A -> string) (xs : list A) (sh : Shell) :
  forEach xs (fun x => Print (f x)) sh = (Returned tt, wrote sh (List.map f xs)).
Proof.
  revert sh. induction xs as [|x xs IH]; intros sh.
  - cbn. now rewrite wrote_nil.
  - cbn [forEach List.map]. unfold andThen. unfold Print at 1.
    rewrite IH. unfold wrote. cbn. now rewrite <- app_assoc.
Qed.

(** ** The package an argument names *)

#[local] Arguments Strings.Split : simpl never.
#[local] Arguments Strings.Fields : simpl never.
#[local] Arguments Strings.Join : simpl never.
#[local] Opaque Ansi.Reset Ansi.BoldRed Ansi.DefaultRed Ansi.DefaultGreen.

Lemma Split_no_sep (s sep : string) :
  Strings.Contains s sep = false -> Strings.Split s sep = [s].
Proof.
  intros H. unfold Strings.Split.
  destruct (String.eqb sep "") eqn:E.
  - apply String.eqb_eq in E. subst sep. destruct s; discriminate H.
  - now rewrite splitFrom_no_sep.
Qed.

Lemma packageOf_no_slash (repo : string) (sh : Shell) :
  Strings.Contains repo "/" = false ->
  packageOf repo sh = (Panicked (outOfRange 1 1), sh).
Proof.
  intros H. unfold packageOf. rewrite (Split_no_sep _ _ H). reflexivity.
Qed.

Lemma packageOf_slash (user name more : string) (sh : Shell) :
  Strings.Contains user "/" = false ->
  Strings.Contains name "/" = false ->
  more = "" \/ Strings.HasPrefix more "/" = true ->
  packageOf (user ++ "/" ++ name ++ more) sh
  = (Returned (mkPackage user name "" ""), sh).
Proof.
  intros Hu Hn Hm. unfold packageOf, Strings.Split.
  change (String.eqb "/" "") with false. cbv iota.
  change (user ++ "/" ++ name ++ more)%string
    with (user ++ String "/" (name ++ more))%string.
  rewrite (splitFrom_char "/" "" user (name ++ more) Hu).
  destruct Hm as [->|Hm].
  - rewrite append_nil_r, (splitFrom_no_sep "/" "" name Hn). reflexivity.
  - destruct more as [|c more]; [discriminate|].
    cbn in Hm. rewrite HasPrefix_nil, andb_true_r in Hm.
    apply Ascii.eqb_eq in Hm. subst c.
    rewrite (splitFrom_char "/" "" name more Hn). reflexivity.
Qed.

#[local] Arguments packageOf : simpl never.

(** One step of a run: an index that is in range, and the tests on words
    that are known. *)
Ltac shell_step :=
  unfold index at 1; cbn [lookup list_lookup]; unfold andThen at 1;
  unfold done at 1; cbv beta iota.

Ltac shell_tests :=
  cbn [String.eqb Ascii.eqb Bool.eqb orb andb List.length Nat.ltb Nat.leb];
  cbv beta iota.

Lemma HasPrefix_app (p rest : string) : Strings.HasPrefix (p ++ rest) p = true.
Proof.
  induction p as [|c p IH]; [apply HasPrefix_nil|].
  cbn [String.append Strings.HasPrefix]. now rewrite Ascii.eqb_refl, IH.
Qed.

Lemma drop_app (p rest : string) : Strings.drop (String.length p) (p ++ rest) = rest.
Proof.
  induction p as [|c p IH]; [now destruct rest|].
  cbn [String.length String.append Strings.drop]. exact IH.
Qed.

Section ShellProperties.

Variable decodeRelease : string -> option Release.
Variable host : Host.

(** X12. [star install] and [star uninstall] take the user and the
    repository from the pieces of their argument around its slashes without
    looking at how many there are: for an argument without a slash the
    shell panics on the second piece, after it has written its
    announcement ([Installing] in green or [Uninstalling] in red, the
    argument and three dots), and the package manager is not called. *)
Theorem star_without_slash_panics (config : Config) (input : string) (sh : Shell)
    (sub repo : string) (rest : list string) :
  Strings.Fields input = "star" :: sub :: repo :: rest ->
  Aliases config !! "star" = None ->
  sub = "install" \/ sub = "uninstall" ->
  Strings.Contains repo "/" = false ->
  executeCommand decodeRelease host config input sh
  = (Panicked (outOfRange 1 1),
     wrote sh [((if String.eqb sub "install"
                 then Ansi.DefaultGreen ++ "Installing "
                 else Ansi.DefaultRed ++ "Uninstalling ")
                ++ repo ++ "..." ++ Ansi.Reset ++ lineFeed)%string]).
Proof.
  intros HF Hal Hsub Hrepo.
  unfold executeCommand. rewrite HF. cbn [List.length Nat.eqb].
  shell_step. rewrite Hal. unfold andThen at 1. unfold done at 1.
  shell_step. shell_tests. shell_step.
  destruct Hsub as [-> | ->]; shell_tests; shell_step;
    unfold andThen at 1; rewrite Println_wrote; cbv iota;
    unfold andThen at 1; rewrite (packageOf_no_slash _ _ Hrepo);
    rewrite !append_assoc; reflexivity.
Qed.

(** X13. An alias whose text holds no word leaves the shell without a
    command: a line that is that alias alone makes the shell panic on the
    first word, which it takes without a test after the expansion. *)
Theorem alias_to_nothing_panics (config : Config) (input : string) (sh : Shell)
    (first alias : string) :
  Strings.Fields input = [first] ->
  Aliases config !! first = Some alias ->
  Strings.Fields alias = [] ->
  executeCommand decodeRelease host config input sh = (Panicked (outOfRange 0 0), sh).
Proof.
  intros HF Hal Hempty.
  unfold executeCommand. rewrite HF. cbn [List.length Nat.eqb].
  shell_step. rewrite Hal. unfold andThen at 1. unfold andThen at 1.
  unfold sliceFrom. cbn [List.length Nat.leb skipn]. unfold done at 1. cbv beta iota.
  rewrite Hempty. reflexivity.
Qed.

(** X14. An alias stands for its words: a line whose first word is an
    alias is run as the line made of the words of the alias followed by
    the other words of the line, with no alias in force, provided there is
    at least one word among them (an alias without words on a line of its
    own leaves no command to run). So an alias is expanded once, in the
    first place only, and what it expands to is not expanded again. *)
Theorem alias_expansion (config : Config) (input : string) (sh : Shell)
    (first alias : string) (rest : list string) :
  Strings.Fields input = first :: rest ->
  Aliases config !! first = Some alias ->
  Strings.Fields alias ++ rest <> [] ->
  executeCommand decodeRelease host config input sh
  = executeCommand decodeRelease host (withoutAliases config)
      (Strings.Join (Strings.Fields alias ++ rest) " ") sh.
Proof.
  intros HF Hal Hne.
  assert (Hwords : Forall isWord (Strings.Fields alias ++ rest)).
  { apply Forall_app. split; [apply Fields_words|].
    pose proof (Fields_words input) as H. rewrite HF in H. now inversion H. }
  unfold executeCommand. rewrite (Fields_Join _ Hwords), HF.
  destruct (Strings.Fields alias ++ rest) as [|x xs] eqn:E; [congruence|].
  cbn [List.length Nat.eqb].
  cbv beta iota delta [andThen done index sliceFrom].
  cbn [List.length Nat.leb skipn lookup list_lookup]. rewrite Hal. cbv beta iota.
  change (drop 0 rest) with rest. rewrite E. cbn [List.length lookup list_lookup].
  change (Aliases (withoutAliases config) !! x) with ((∅ : gmap string string) !! x).
  rewrite lookup_empty. cbv beta iota.
  destruct config. reflexivity.
Qed.

(** X15. [star install user/repo] installs the package with that user
    and that repository and reports how it went: the world is the one
    [Install] leaves, and the shell has written its announcement and then
    the success or the error of [Install]. What follows a second slash in
    the argument is not looked at. *)
Theorem star_install_runs_Install (config : Config) (input : string) (sh : Shell)
    (user name more : string) (rest : list string) :
  Strings.Fields input = "star" :: "install" :: (user ++ "/" ++ name ++ more)%string :: rest ->
  Aliases config !! "star" = None ->
  Strings.Contains user "/" = false ->
  Strings.Contains name "/" = false ->
  more = "" \/ Strings.HasPrefix more "/" = true ->
  let repo := (user ++ "/" ++ name ++ more)%string in
  let run := Install decodeRelease (mkPackage user name "" "") (world sh) in
  executeCommand decodeRelease host config input sh
  = (Returned tt,
     mkShell (snd run)
       (stdout sh ++
        [(Ansi.DefaultGreen ++ "Installing " ++ repo ++ "..." ++ Ansi.Reset ++ lineFeed)%string;
         match fst run with
         | Ok _ =>
             (Ansi.DefaultGreen ++ "[SUCCESS] " ++ repo ++ " installed successfully!"
              ++ Ansi.Reset ++ lineFeed)%string
         | Err err =>
             (Ansi.BoldRed ++ "[ERROR] Installation failed: " ++ Error host err
              ++ Ansi.Reset ++ lineFeed)%string
         end])
       (cwd sh)).
Proof.
  intros HF Hal Hu Hn Hm repo run.
  unfold executeCommand. rewrite HF. cbn [List.length Nat.eqb].
  shell_step. rewrite Hal. unfold andThen at 1. unfold done at 1.
  shell_step. shell_tests. shell_step. shell_tests. shell_step.
  unfold andThen at 1. rewrite Println_wrote. cbv iota.
  unfold andThen at 1. rewrite (packageOf_slash _ _ _ _ Hu Hn Hm).
  unfold andThen, call. cbn [world wrote stdout cwd]. fold run. subst repo.
  destruct run as [[[]|err] w']; cbn [fst snd]; rewrite Println_wrote;
    unfold wrote; cbn [world stdout cwd]; rewrite <- app_assoc, !append_assoc;
    reflexivity.
Qed.

(** X16. The shell knows the subcommands [install], [list] and
    [uninstall] of [star] and no other: for any other word, [update]
    among them, it writes that the subcommand is unknown and does nothing
    else. So [star update user/repo] does not reach [Update]. *)
Theorem star_unknown_subcommand (config : Config) (input : string) (sh : Shell)
    (sub : string) (rest : list string) :
  Strings.Fields input = "star" :: sub :: rest ->
  Aliases config !! "star" = None ->
  sub <> "install" -> sub <> "list" -> sub <> "uninstall" ->
  executeCommand decodeRelease host config input sh
  = (Returned tt,
     wrote sh [(Ansi.BoldRed ++ "[ERROR] Unknown 'star' subcommand." ++ Ansi.Reset
                ++ lineFeed)%string]).
Proof.
  intros HF Hal H1 H2 H3.
  apply String.eqb_neq in H1, H2, H3.
  unfold executeCommand. rewrite HF. cbn [List.length Nat.eqb].
  shell_step. rewrite Hal. unfold andThen at 1. unfold done at 1.
  shell_step. shell_tests. shell_step. rewrite H1, H2, H3.
  rewrite Println_wrote. now rewrite !append_assoc.
Qed.

(** X17. [star list] writes one line for each record of the manifest, in
    the order of the manifest, with the user, the repository and the
    version of the record (the file is not shown), or the error of
    [ListInstalledStars] when there is one; it changes nothing else. *)
Theorem star_list_prints_records (config : Config) (input : string) (sh : Shell)
    (rest : list string) :
  Strings.Fields input = "star" :: "list" :: rest ->
  Aliases config !! "star" = None ->
  executeCommand decodeRelease host config input sh
  = (Returned tt,
     wrote sh
       match fst (ListInstalledStars (world sh)) with
       | Ok installed => List.map listLine (items installed)
       | Err err =>
           [(Ansi.BoldRed ++ "[ERROR] Could not list installed packages: "
             ++ Error host err ++ Ansi.Reset ++ lineFeed)%string]
       end).
Proof.
  intros HF Hal.
  unfold executeCommand. rewrite HF. cbn [List.length Nat.eqb].
  shell_step. rewrite Hal. unfold andThen at 1. unfold done at 1.
  shell_step. shell_tests. shell_step. shell_tests.
  unfold andThen, call. unfold ListInstalledStars.
  destruct (listInstalledPackages (world sh)) as [[s|e] w'] eqn:El;
    apply listInstalledPackages_world in El; subst w'; cbn [fst].
  - replace (mkShell (world sh) (stdout sh) (cwd sh)) with sh by now destruct sh.
    apply (forEach_Print listLine).
  - rewrite Println_wrote. unfold wrote. cbn [world stdout cwd].
    now rewrite !append_assoc.
Qed.

(** X18. The prompt is always made: [generatePrompt] takes the second
    piece of [user@host] around the [@] without a test, and there always
    is one, whatever the names of the user and of the host are; the prompt
    ends with the dollar sign, and making it changes nothing. *)
Theorem generatePrompt_returns (config : Config) (sh : Shell) :
  exists prompt,
    generatePrompt host config sh = (Returned (prompt ++ " $ ")%string, sh).
Proof.
  unfold generatePrompt.
  unfold andThen at 1. unfold getCurrentDirectory.
  assert (Hlen : 2 <= List.length (Strings.Split (getUserAndHost host) "@")).
  { unfold Strings.Split. change (String.eqb "@" "") with false. cbv iota.
    apply splitFrom_two; [discriminate|].
    unfold getUserAndHost. apply Contains_app_r.
    cbn [String.append Strings.HasPrefix Ascii.eqb Bool.eqb andb]. apply HasPrefix_nil. }
  destruct (Strings.Split (getUserAndHost host) "@") as [|a [|b l]];
    [cbn in Hlen; lia | cbn in Hlen; lia |].
  destruct (Getwd host sh); unfold andThen, getCurrentTime, index;
    cbn [lookup list_lookup]; unfold done; eexists; reflexivity.
Qed.

(** Nothing the shell does depends on the [FileColors] of the
    configuration: no function reads them. *)
Lemma FileColors_unused (config : Config) (colors : gmap string string)
    (input : string) (sh : Shell) :
  executeCommand decodeRelease host (withFileColors config colors) input sh
  = executeCommand decodeRelease host config input sh /\
  generatePrompt host (withFileColors config colors) sh = generatePrompt host config sh.
Proof. destruct config. split; reflexivity. Qed.

Lemma getFileColor_directory (config : Config) (color : string) (file : Fs.DirEntry) :
  Fs.IsDir file = true ->
  PromptColors config !! "directory" = Some color ->
  getFileColor host config file = done color.
Proof.
  intros Hd Hcolor. unfold getFileColor, getColor. now rewrite Hd, Hcolor.
Qed.

Lemma forEach_directories (config : Config) (color : string)
    (files : list Fs.DirEntry) (sh : Shell) :
  List.forallb Fs.IsDir files = true ->
  PromptColors config !! "directory" = Some color ->
  forEach files
    (fun file =>
       andThen (getFileColor host config file)
         (fun c => Println (c ++ Fs.Name file ++ Ansi.Reset)))
    sh
  = (Returned tt,
     wrote sh (List.map (fun file => (color ++ Fs.Name file ++ Ansi.Reset ++ lineFeed)%string)
                 files)).
Proof.
  intros Hdirs Hcolor. revert sh. induction files as [|file files IH]; intros sh.
  - cbn. now rewrite wrote_nil.
  - cbn [List.forallb] in Hdirs. apply andb_true_iff in Hdirs as [Hd Hdirs].
    cbn [forEach List.map]. unfold andThen at 1. unfold andThen at 1.
    rewrite (getFileColor_directory _ _ _ Hd Hcolor).
    unfold done at 1. rewrite Println_wrote, (IH Hdirs), wrote_wrote.
    now rewrite !append_assoc.
Qed.

(** X19. The listing takes the colour of a directory from the
    [PromptColors] of the configuration, under the name [directory]; the
    [FileColors] are not looked at. In a directory that holds directories
    only, [ls] writes one line for each entry, in the order [ReadDir] gives
    them: that colour, the name, and the reset code; it changes nothing
    else. *)
Theorem customLs_directories (config : Config) (sh : Shell)
    (files : list Fs.DirEntry) (color : string) :
  ReadDir host (match Getwd host sh with Ok dir => dir | Err _ => "unknown" end) sh
  = Ok files ->
  List.forallb Fs.IsDir files = true ->
  PromptColors config !! "directory" = Some color ->
  forall colors,
    customLs host (withFileColors config colors) sh
    = (Returned tt,
       wrote sh
         (List.map (fun file => (color ++ Fs.Name file ++ Ansi.Reset ++ lineFeed)%string)
            files)).
Proof.
  intros Hread Hdirs Hcolor colors.
  unfold customLs, andThen, getCurrentDirectory.
  destruct (Getwd host sh) as [dir|e]; rewrite Hread;
    apply (forEach_directories (withFileColors config colors) color files sh Hdirs Hcolor).
Qed.

(** X20. [replaceHomeWithTilde] compares characters, not path elements,
    and does not ask whether there is a home directory: a path that begins
    with the characters of the home directory has them replaced by a
    tilde, so with no home directory set every path gets a tilde in front,
    and beside a home [/home/al] the path [/home/alice] becomes [~ice]. *)
Theorem replaceHomeWithTilde_prefix (rest : string) :
  let home := if String.eqb (Getenv host "HOME") "" then Getenv host "USERPROFILE"
              else Getenv host "HOME" in
  replaceHomeWithTilde host (home ++ rest) = ("~" ++ rest)%string.
Proof.
  intros home. unfold replaceHomeWithTilde. fold home.
  rewrite HasPrefix_app. unfold Strings.TrimPrefix. rewrite HasPrefix_app.
  now rewrite drop_app.
Qed.

(** X21. A blank line is passed over before anything is looked up: the
    shell does nothing for it, whatever the configuration and the host
    are. *)
Theorem blank_line_does_nothing (config : Config) (input : string) (sh : Shell) :
  blank input = true ->
  executeCommand decodeRelease host config input sh = (Returned tt, sh).
Proof.
  intros H. unfold executeCommand. now rewrite (Fields_blank _ H).
Qed.

End ShellProperties.

(** ** The shell at work *)

Lemma star_without_slash_panics_witness :
  executeCommand sampleDecode sampleHost sampleConfig "star install tool" sampleShell
  = (Panicked "runtime error: index out of range [1] with length 1",
     wrote sampleShell
       [(Ansi.DefaultGreen ++ "Installing tool..." ++ Ansi.Reset ++ lineFeed)%string]) /\
  executeCommand sampleDecode sampleHost sampleConfig "star uninstall tool" sampleShell
  = (Panicked "runtime error: index out of range [1] with length 1",
     wrote sampleShell
       [(Ansi.DefaultRed ++ "Uninstalling tool..." ++ Ansi.Reset ++ lineFeed)%string]).
Proof.
  assert (Ha : Aliases sampleConfig !! "star" = None) by (vm_compute; reflexivity).
  split.
  - exact (star_without_slash_panics sampleDecode sampleHost sampleConfig
             "star install tool" sampleShell "install" "tool" []
             eq_refl Ha (or_introl eq_refl) eq_refl).
  - exact (star_without_slash_panics sampleDecode sampleHost sampleConfig
             "star uninstall tool" sampleShell "uninstall" "tool" []
             eq_refl Ha (or_intror eq_refl) eq_refl).
Defined.

Lemma alias_to_nothing_panics_witness :
  executeCommand sampleDecode sampleHost sampleConfig "nothing" sampleShell
  = (Panicked "runtime error: index out of range [0] with length 0", sampleShell).
Proof.
  assert (Ha : Aliases sampleConfig !! "nothing" = Some " ") by (vm_compute; reflexivity).
  exact (alias_to_nothing_panics sampleDecode sampleHost sampleConfig "nothing"
           sampleShell "nothing" " " eq_refl Ha eq_refl).
Defined.

Lemma alias_expansion_witness :
  executeCommand sampleDecode sampleHost sampleConfig "i  u/r" sampleShell
  = executeCommand sampleDecode sampleHost (withoutAliases sampleConfig)
      "star install u/r" sampleShell.
Proof.
  assert (Ha : Aliases sampleConfig !! "i" = Some "star install")
    by (vm_compute; reflexivity).
  assert (Hn : Strings.Fields "star install" ++ ["u/r"] <> []) by discriminate.
  exact (alias_expansion sampleDecode sampleHost sampleConfig "i  u/r" sampleShell
           "i" "star install" ["u/r"] eq_refl Ha Hn).
Defined.

Lemma star_install_runs_Install_witness :
  executeCommand sampleDecode sampleHost sampleConfig "star install u/r/x" sampleShell
  = (Returned tt,
     mkShell (snd (Install sampleDecode idUR freshWorld))
       [(Ansi.DefaultGreen ++ "Installing u/r/x..." ++ Ansi.Reset ++ lineFeed)%string;
        (Ansi.DefaultGreen ++ "[SUCCESS] u/r/x installed successfully!"
         ++ Ansi.Reset ++ lineFeed)%string]
       "/home/u/work").
Proof.
  assert (Ha : Aliases sampleConfig !! "star" = None) by (vm_compute; reflexivity).
  assert (Hi : fst (Install sampleDecode idUR freshWorld) = Ok tt)
    by (vm_compute; reflexivity).
  pose proof (star_install_runs_Install sampleDecode sampleHost sampleConfig
                "star install u/r/x" sampleShell "u" "r" "/x" []
                eq_refl Ha eq_refl eq_refl (or_intror eq_refl)) as H.
  cbv zeta in H. rewrite H. change (world sampleShell) with freshWorld.
  fold idUR. rewrite Hi. reflexivity.
Defined.

Lemma star_unknown_subcommand_witness :
  executeCommand sampleDecode sampleHost sampleConfig "star update u/r" crowdedShell
  = (Returned tt,
     wrote crowdedShell
       [(Ansi.BoldRed ++ "[ERROR] Unknown 'star' subcommand." ++ Ansi.Reset
         ++ lineFeed)%string]).
Proof.
  assert (Ha : Aliases sampleConfig !! "star" = None) by (vm_compute; reflexivity).
  assert (H1 : "update" <> "install") by discriminate.
  assert (H2 : "update" <> "list") by discriminate.
  assert (H3 : "update" <> "uninstall") by discriminate.
  exact (star_unknown_subcommand sampleDecode sampleHost sampleConfig
           "star update u/r" crowdedShell "update" ["u/r"] eq_refl Ha H1 H2 H3).
Defined.

Lemma star_list_prints_records_witness :
  executeCommand sampleDecode sampleHost sampleConfig "star list" crowdedShell
  = (Returned tt, wrote crowdedShell (List.map listLine [recOther; recUR; recUR2])).
Proof.
  assert (Ha : Aliases sampleConfig !! "star" = None) by (vm_compute; reflexivity).
  assert (Hl : fst (ListInstalledStars (world crowdedShell))
               = Ok (Slice [recOther; recUR; recUR2])) by (vm_compute; reflexivity).
  rewrite (star_list_prints_records sampleDecode sampleHost sampleConfig "star list"
             crowdedShell [] eq_refl Ha).
  rewrite Hl. reflexivity.
Defined.

Lemma customLs_directories_witness :
  customLs listingHost (withFileColors sampleConfig ∅) sampleShell
  = (Returned tt,
     wrote sampleShell
       [("bold-blue" ++ "bin" ++ Ansi.Reset ++ lineFeed)%string;
        ("bold-blue" ++ "src.zip" ++ Ansi.Reset ++ lineFeed)%string]).
Proof.
  assert (Hc : PromptColors sampleConfig !! "directory" = Some "bold-blue")
    by (vm_compute; reflexivity).
  exact (customLs_directories listingHost sampleConfig sampleShell
           [Fs.mkDirEntry "bin" true (Ok Fs.ModeDir);
            Fs.mkDirEntry "src.zip" true (Ok Fs.ModeDir)]
           "bold-blue" eq_refl eq_refl Hc ∅).
Defined.

Lemma blank_line_does_nothing_witness :
  executeCommand sampleDecode sampleHost sampleConfig "   " sampleShell
  = (Returned tt, sampleShell).
Proof.
  exact (blank_line_does_nothing sampleDecode sampleHost sampleConfig "   " sampleShell
           eq_refl).
Defined.

